(** * back-to-monitor: the state tracker of [src/extension.js]

    A shallow embedding of [BackToMonitorExtension]: the two maps it owns
    ([_windowsSavedStates], [_monitorDisconnectedWindows]), its settings, and
    the handlers wired to the screen watcher's signals.  JS [Map]s are finite
    maps ([gmap]), JS [Set]s are finite sets ([gset]); a handler is a function
    from the extension's state to its next state, paired with the calls it
    makes on the host (restore, minimize) where it makes any.

    A JS Number is a binary64 floating-point number: the coordinates are
    Rocq's primitive [float]s, whose operations are those of the format.

    A JS [Map] or [Set] enumerates in insertion order, a [gmap] or [gset] in
    an order of its own: the lists of host calls below hold the calls the
    source makes, each as often as the source makes it, in the model's
    enumeration order.  Every statement about calls is about which calls are
    made and how often, never about their order. *)

From stdpp Require Import gmap strings list fin_maps.
From Stdlib Require Import Floats.

Local Open Scope Z_scope.

(** ** Data *)

(** A [Meta.Window]: a host object compared by reference when used as a [Map]
    key or [Set] member; the model names each object by a number. *)
Abbreviation Window := nat.

(** [outputName]: the name of a video output. *)
Abbreviation Output := string.

(** [Date.now()]: a whole number of milliseconds, far below [2^53]; on such
    Numbers the comparison of line 138 is the comparison of the integers. *)
Abbreviation Timestamp := Z.

Module MonitorRect.
(** [monitorRect]: four JS Numbers, that is binary64 floating-point numbers. *)
Record t := mk { x : float; y : float; width : float; height : float }.
End MonitorRect.

Module WindowState.
(** What [windowSaver.save] returns.  The extension reads and writes [x] and
    [y] only, two JS Numbers; [payload] stands for the other fields of the
    object, which it carries along untouched. *)
Record t := mk { x : float; y : float; payload : list (string * Z) }.
End WindowState.

(** The object [{windowState, time}] stored per output (line 103). *)
Record SavedState := mkSavedState {
  windowState : WindowState.t;
  time : Timestamp;
}.

(** [this._settings] *)
Record Settings := mkSettings {
  rememberState : bool;
  minimize : bool;
}.

(** The fields of [BackToMonitorExtension] that the handlers read and write. *)
Record Extension := mkExtension {
  _windowsSavedStates : gmap Window (gmap Output SavedState);
  _monitorDisconnectedWindows : gmap Output (gset Window);
  _settings : Settings;
}.

Definition with_windowsSavedStates
    (m : gmap Window (gmap Output SavedState)) (st : Extension) : Extension :=
  mkExtension m (_monitorDisconnectedWindows st) (_settings st).

Definition with_monitorDisconnectedWindows
    (d : gmap Output (gset Window)) (st : Extension) : Extension :=
  mkExtension (_windowsSavedStates st) d (_settings st).

Definition with_settings (s : Settings) (st : Extension) : Extension :=
  mkExtension (_windowsSavedStates st) (_monitorDisconnectedWindows st) s.

(** ** The host *)

(** How a call into the host ends: it returns a value or it throws. *)
Inductive Completion (A : Type) : Type :=
  | Returned (a : A)
  | Threw.
Arguments Returned {A} a.
Arguments Threw {A}.

(** Modelled from the spec: [callSafely] of [src/utils], which is not among
    the sources.  The spec has every call into the codec wrapped so that a
    thrown error is caught and logged; the caller then sees no value
    ([if (windowState)] at line 85 is false). *)
Definition callSafely {A : Type} (c : Completion A) : option A :=
  match c with
  | Returned a => Some a
  | Threw => None
  end.

(** Modelled from the spec: [windowSaver] of [src/window-saver], which is not
    among the sources; the spec gives its four operations and says that
    [save] and [restore] may fail (CaptureError, RestoreError). *)
Record WindowSaver := mkWindowSaver {
  isInside : Window → MonitorRect.t → bool;
  allowsMove : Window → bool;
  save : Window → Completion WindowState.t;
  restore : Window → WindowState.t → MonitorRect.t → Completion unit;
}.

(** What a handler can observe of the desktop while it runs. *)
Record Host := mkHost {
  windowSaver : WindowSaver;
  list_windows : list Window;          (* global.display.list_windows(0) *)
  can_minimize : Window → bool;        (* metaWindow.can_minimize() *)
}.

(** The calls a handler makes that change the desktop. *)
Inductive HostCall : Type :=
  | Restore (metaWindow : Window) (windowState : WindowState.t)
      (monitorRect : MonitorRect.t) (outcome : option unit)
  | Minimize (metaWindow : Window).

(** ** Coordinate transforms

    The two transforms subtract and add JS Numbers: binary64 operations,
    which round their result to the nearest number of the format. *)

(** Lines 87-88: [windowState.x -= monitorRect.x; windowState.y -= monitorRect.y]. *)
Definition toRelative (monitorRect : MonitorRect.t) (ws : WindowState.t)
    : WindowState.t :=
  WindowState.mk (WindowState.x ws - MonitorRect.x monitorRect)%float
                 (WindowState.y ws - MonitorRect.y monitorRect)%float
                 (WindowState.payload ws).

(** Lines 145-146: [windowState.x += monitorRect.x; windowState.y += monitorRect.y]. *)
Definition toAbsolute (monitorRect : MonitorRect.t) (ws : WindowState.t)
    : WindowState.t :=
  WindowState.mk (WindowState.x ws + MonitorRect.x monitorRect)%float
                 (WindowState.y ws + MonitorRect.y monitorRect)%float
                 (WindowState.payload ws).

(** ** Handlers *)

(** [enable], lines 14-23: both maps start empty.  The settings object is
    created with both options true and then bound to the settings store,
    which writes the stored values into it: [stored] is what it holds once
    bound. *)
Definition enable (stored : Settings) : Extension :=
  mkExtension ∅ ∅ stored.

(** [_onRememberStateChange], lines 59-66. *)
Definition _onRememberStateChange (st : Extension) : Extension :=
  if negb (rememberState (_settings st))
  then with_windowsSavedStates ∅ st
  else st.

(** [_onMinimizeChange], lines 68-70: it logs and nothing else. *)
Definition _onMinimizeChange (st : Extension) : Extension := st.

(** Lines 91-104: record [{windowState, time}] under [outputName] for
    [metaWindow], creating the window's inner map when it has none, and
    keeping a pending state of the same output when there is one. *)
Definition recordState (outputName : Output) (time : Timestamp)
    (metaWindow : Window) (windowState : WindowState.t)
    (saved : gmap Window (gmap Output SavedState))
    : gmap Window (gmap Output SavedState) :=
  let saved1 :=
    match saved !! metaWindow with
    | Some _ => saved
    | None => <[metaWindow := ∅]> saved
    end in
  let savedStates := default ∅ (saved1 !! metaWindow) in
  match savedStates !! outputName with
  | Some _ => saved1
  | None =>
      <[metaWindow := <[outputName := mkSavedState windowState time]> savedStates]>
        saved1
  end.

(** Lines 79-108: the body of the loop over the windows. *)
Definition disconnectedWindow (h : Host) (outputName : Output)
    (monitorRect : MonitorRect.t) (time : Timestamp)
    (st : Extension) (metaWindow : Window) : Extension :=
  if negb (isInside (windowSaver h) metaWindow monitorRect) then st
  else
    let st1 :=
      if rememberState (_settings st) && allowsMove (windowSaver h) metaWindow
      then
        match callSafely (save (windowSaver h) metaWindow) with
        | Some windowState =>
            with_windowsSavedStates
              (recordState outputName time metaWindow
                 (toRelative monitorRect windowState)
                 (_windowsSavedStates st))
              st
        | None => st
        end
      else st in
    (* disconnectedWindows.add(metaWindow): the Set is the one stored under
       outputName at line 76 *)
    with_monitorDisconnectedWindows
      (alter (λ disconnectedWindows, {[metaWindow]} ∪ disconnectedWindows)
         outputName (_monitorDisconnectedWindows st1))
      st1.

(** [_onOutputDisconnected], lines 72-110.  [time] is [Date.now()], read once
    at line 73. *)
Definition _onOutputDisconnected (h : Host) (outputName : Output)
    (monitorRect : MonitorRect.t) (time : Timestamp) (st : Extension)
    : Extension :=
  let st0 :=
    with_monitorDisconnectedWindows
      (<[outputName := ∅]> (_monitorDisconnectedWindows st)) st in
  foldl (disconnectedWindow h outputName monitorRect time) st0 (list_windows h).

(** [_onOutputConnected], lines 112-114. *)
Definition _onOutputConnected (outputName : Output) (st : Extension)
    : Extension :=
  with_monitorDisconnectedWindows
    (delete outputName (_monitorDisconnectedWindows st)) st.

(** Lines 122-124. *)
Definition minimizeWindow (h : Host) (st : Extension) (metaWindow : Window)
    : list HostCall :=
  if minimize (_settings st) && can_minimize h metaWindow
  then [Minimize metaWindow]
  else [].

(** [_onMonitorUnloaded], lines 116-127. *)
Definition _onMonitorUnloaded (h : Host) (outputName : Output) (st : Extension)
    : Extension * list HostCall :=
  match _monitorDisconnectedWindows st !! outputName with
  | Some disconnectedWindows =>
      (with_monitorDisconnectedWindows
         (delete outputName (_monitorDisconnectedWindows st)) st,
       elements disconnectedWindows ≫= minimizeWindow h st)
  | None => (st, [])
  end.

(** Lines 137-141: delete every remaining state whose time is at or after
    [t].  Deleting from a [Map] while its entries are enumerated is defined
    in JS: every entry still present is visited. *)
Definition forgetYounger (t : Timestamp) (savedStates : gmap Output SavedState)
    : gmap Output SavedState :=
  filter (λ kv, ¬ (t ≤ time kv.2)) savedStates.

(** Lines 131-151: the body of the loop over [_windowsSavedStates.entries()].
    The inner map is changed in place, which the model writes back under the
    window's key. *)
Definition loadedWindow (h : Host) (outputName : Output)
    (monitorRect : MonitorRect.t)
    (acc : Extension * list HostCall)
    (entry : Window * gmap Output SavedState) : Extension * list HostCall :=
  let '(metaWindow, savedStates) := entry in
  match savedStates !! outputName with
  | Some state =>
      let savedStates1 := delete outputName savedStates in
      let savedStates2 := forgetYounger (time state) savedStates1 in
      let windowState := toAbsolute monitorRect (windowState state) in
      (with_windowsSavedStates
         (<[metaWindow := savedStates2]> (_windowsSavedStates acc.1)) acc.1,
       acc.2 ++ [Restore metaWindow windowState monitorRect
                   (callSafely
                      (restore (windowSaver h) metaWindow windowState monitorRect))])
  | None => acc
  end.

(** [_onMonitorLoaded], lines 129-153. *)
Definition _onMonitorLoaded (h : Host) (outputName : Output)
    (monitorRect : MonitorRect.t) (st : Extension)
    : Extension * list HostCall :=
  foldl (loadedWindow h outputName monitorRect) (st, [])
    (map_to_list (_windowsSavedStates st)).

(** [_onWindowRemoved], lines 155-161. *)
Definition _onWindowRemoved (metaWindow : Window) (st : Extension) : Extension :=
  mkExtension
    (delete metaWindow (_windowsSavedStates st))
    ((λ disconnectedWindows : gset Window, disconnectedWindows ∖ {[metaWindow]})
       <$> _monitorDisconnectedWindows st)
    (_settings st).

(** ** Events *)

(** The signals connected in [enable] (lines 29-33) and the two bound
    settings (lines 22-23). *)
Inductive Event : Type :=
  | OutputDisconnected (outputName : Output) (monitorRect : MonitorRect.t)
      (now : Timestamp)
  | OutputConnected (outputName : Output) (monitorRect : MonitorRect.t)
  | MonitorUnloaded (outputName : Output) (monitorRect : MonitorRect.t)
  | MonitorLoaded (outputName : Output) (monitorRect : MonitorRect.t)
  | WindowRemoved (metaWindow : Window)
  | RememberStateChanged (value : bool)
  | MinimizeChanged (value : bool).

(** One event, delivered while the desktop is as [h] says.  A bound setting
    is written into [_settings] before its callback runs. *)
Definition step (h : Host) (ev : Event) (st : Extension)
    : Extension * list HostCall :=
  match ev with
  | OutputDisconnected outputName monitorRect now =>
      (_onOutputDisconnected h outputName monitorRect now st, [])
  | OutputConnected outputName _ => (_onOutputConnected outputName st, [])
  | MonitorUnloaded outputName _ => _onMonitorUnloaded h outputName st
  | MonitorLoaded outputName monitorRect =>
      _onMonitorLoaded h outputName monitorRect st
  | WindowRemoved metaWindow => (_onWindowRemoved metaWindow st, [])
  | RememberStateChanged value =>
      (_onRememberStateChange
         (with_settings (mkSettings value (minimize (_settings st))) st), [])
  | MinimizeChanged value =>
      (_onMinimizeChange
         (with_settings (mkSettings (rememberState (_settings st)) value) st), [])
  end.

(** Events are delivered one after the other, each handler running to its
    end: a run threads the state and appends the calls. *)
Definition run (trace : list (Host * Event)) (st : Extension)
    : Extension * list HostCall :=
  foldl (λ acc he, let r := step he.1 he.2 acc.1 in (r.1, acc.2 ++ r.2))
    (st, []) trace.

(** The states the extension can be in: those a run from [enable] ends in. *)
Definition reachable (st : Extension) : Prop :=
  ∃ stored trace, (run trace (enable stored)).1 = st.

(** The restore calls made for one window, in a list of host calls. *)
Definition restoresOf (metaWindow : Window) (calls : list HostCall)
    : list (WindowState.t * MonitorRect.t) :=
  calls ≫= λ c,
    match c with
    | Restore w ws r _ => if decide (w = metaWindow) then [(ws, r)] else []
    | Minimize _ => []
    end.

(** The windows minimized by a list of host calls. *)
Definition minimized (calls : list HostCall) : list Window :=
  calls ≫= λ c, match c with Minimize w => [w] | Restore _ _ _ _ => [] end.

(** The invariant of the spec's data model: no window is mapped to an empty
    inner map. *)
Definition savedStatesNonEmpty (st : Extension) : Prop :=
  map_Forall (λ _ (savedStates : gmap Output SavedState), savedStates ≠ ∅)
    (_windowsSavedStates st).

#[global] Instance savedStatesNonEmpty_dec (st : Extension) :
  Decision (savedStatesNonEmpty st).
Proof. unfold savedStatesNonEmpty. apply _. Defined.

(** ** Definitions used in the statements *)

(** ** Numbers that hold integers *)

(** The binary64 number nearest to an integer, as the specification of the
    format has it and as a JS Number. *)
Definition integerSF (n : Z) : spec_float := binary_normalize prec emax n 0 false.
Definition ofInteger (n : Z) : float := SF2Prim (integerSF n).

(** [Number.isSafeInteger]: the integers of magnitude below [2^53], which
    binary64 holds without rounding. *)
Definition safeInteger (n : Z) : Prop := Z.abs n < 2 ^ 53.

(** The mantissa and the exponent of the binary64 number that holds a
    positive integer of at most 53 bits. *)
Definition mantissa (q : positive) : positive :=
  Z.to_pos (Zpos q * 2 ^ (53 - Zpos (digits2_pos q))).
Definition exponent (q : positive) : Z := Zpos (digits2_pos q) - 53.

(** What [recordState] leaves under the window's key, from what was there. *)
Definition recorded (outputName : Output) (time : Timestamp)
    (windowState : WindowState.t) (old : option (gmap Output SavedState))
    : gmap Output SavedState :=
  match default ∅ old !! outputName with
  | Some _ => default ∅ old
  | None => <[outputName := mkSavedState windowState time]> (default ∅ old)
  end.

(** Whether the loop body captures the state of a window, and what it
    captures. *)
Definition captured (h : Host) (monitorRect : MonitorRect.t)
    (st : Extension) (w : Window) : option WindowState.t :=
  if isInside (windowSaver h) w monitorRect
     && rememberState (_settings st) && allowsMove (windowSaver h) w
  then toRelative monitorRect <$> callSafely (save (windowSaver h) w)
  else None.

(** What the loop body leaves of one window's inner map. *)
Definition loadedStates (outputName : Output)
    (savedStates : gmap Output SavedState) : gmap Output SavedState :=
  match savedStates !! outputName with
  | Some state => forgetYounger (time state) (delete outputName savedStates)
  | None => savedStates
  end.

(** The restore call the loop body makes for one entry, if any. *)
Definition restoreCall (h : Host) (outputName : Output)
    (monitorRect : MonitorRect.t) (entry : Window * gmap Output SavedState)
    : list HostCall :=
  match entry.2 !! outputName with
  | Some state =>
      let ws := toAbsolute monitorRect (windowState state) in
      [Restore entry.1 ws monitorRect
         (callSafely (restore (windowSaver h) entry.1 ws monitorRect))]
  | None => []
  end.

(** Two desktops that differ at most in what [save] does for window [w]. *)
Definition sameExceptSave (w : Window) (h h0 : Host) : Prop :=
  list_windows h = list_windows h0
  ∧ (∀ w' r, isInside (windowSaver h) w' r = isInside (windowSaver h0) w' r)
  ∧ (∀ w', allowsMove (windowSaver h) w' = allowsMove (windowSaver h0) w')
  ∧ (∀ w', w' ≠ w → save (windowSaver h) w' = save (windowSaver h0) w').

(** Two states that differ at most in the saved states of window [w]. *)
Definition sameExceptSaved (w : Window) (st1 st2 : Extension) : Prop :=
  _settings st1 = _settings st2
  ∧ _monitorDisconnectedWindows st1 = _monitorDisconnectedWindows st2
  ∧ ∀ w', w' ≠ w → _windowsSavedStates st1 !! w' = _windowsSavedStates st2 !! w'.

(** ** A small desktop for the examples

    Window 7 sits at (100,50), window 8 at (2000,40); each is 800 by 600. *)

Definition example_position (w : Window) : float * float :=
  if decide (w = 8%nat) then (2000%float, 40%float) else (100%float, 50%float).

Definition example_state (w : Window) : WindowState.t :=
  WindowState.mk (example_position w).1 (example_position w).2
    [("width"%string, 800); ("height"%string, 600)].

Definition example_isInside (w : Window) (r : MonitorRect.t) : bool :=
  (MonitorRect.x r <=? (example_position w).1)%float
  && ((example_position w).1 <? MonitorRect.x r + MonitorRect.width r)%float
  && (MonitorRect.y r <=? (example_position w).2)%float
  && ((example_position w).2 <? MonitorRect.y r + MonitorRect.height r)%float.

(** Every capture and every restore succeeds. *)
Definition example_saver : WindowSaver :=
  mkWindowSaver example_isInside (λ _, true)
    (λ w, Returned (example_state w)) (λ _ _ _, Returned ()).

(** Every capture and every restore throws. *)
Definition example_failing_saver : WindowSaver :=
  mkWindowSaver example_isInside (λ _, true) (λ _, Threw) (λ _ _ _, Threw).

Definition example_host : Host :=
  mkHost example_saver [7%nat; 8%nat] (λ _, true).

Definition example_failing_host : Host :=
  mkHost example_failing_saver [7%nat; 8%nat] (λ _, true).

Definition rect_left : MonitorRect.t := MonitorRect.mk 0 0 1920 1080.
Definition rect_right : MonitorRect.t := MonitorRect.mk 1920 0 1920 1080.

(** The state after "HDMI-1", at [rect_left], disconnected at time 1000. *)
Definition example_pending : Extension :=
  _onOutputDisconnected example_host "HDMI-1" rect_left 1000
    (enable (mkSettings true true)).

Definition example_entry : SavedState :=
  mkSavedState
    (WindowState.mk 100 50 [("width"%string, 800); ("height"%string, 600)]) 1000.

(** The spec's example of conflict resolution: window 7 has states saved for "A" at time 1
    and for "B" at time 2. *)
Definition example_state_A : SavedState :=
  mkSavedState (WindowState.mk 10 20 []) 1.
Definition example_state_B : SavedState :=
  mkSavedState (WindowState.mk 30 40 []) 2.
Definition example_two_saves : Extension :=
  mkExtension
    {[ 7%nat := {[ "A" := example_state_A; "B" := example_state_B ]} ]}
    ∅ (mkSettings true true).


(** "A" and "B" disconnect within the same millisecond, each with window 7
    inside its rectangle. *)
Definition example_same_time : Extension :=
  _onOutputDisconnected example_host "B" rect_left 1000
    (_onOutputDisconnected example_host "A" rect_left 1000
       (enable (mkSettings true true))).

(** A run that ends in a state where a window is mapped to an empty inner
    map: "HDMI-1" disconnects with window 7 on it, then its monitor loads. *)
Definition example_disconnect_load : list (Host * Event) :=
  [(example_host, OutputDisconnected "HDMI-1" rect_left 1000);
   (example_host, MonitorLoaded "HDMI-1" rect_right)].

(** A state in which window 7 has states pending for two outputs and is
    stranded under both, next to window 8. *)
Definition example_twice_stranded : Extension :=
  mkExtension
    {[ 7%nat := {[ "A" := example_state_A; "B" := example_state_B ]};
       8%nat := {[ "A" := example_state_A ]} ]}
    {[ "A" := {[ 7%nat; 8%nat ]}; "B" := {[ 7%nat ]} ]}
    (mkSettings true true).

(** ** Life cycle *)

(** [this._signalManager], [this._screenWatcher] and [this._settingsDb]: each
    holds a host object or nothing ([undefined] after the constructor, [null]
    after [disable]).  [disable] reads them for their truthiness only; the
    model names the objects by numbers. *)
Record Handles := mkHandles {
  _signalManager : option nat;
  _screenWatcher : option nat;
  _settingsDb : option nat;
}.

(** The calls [disable] makes. *)
Inductive TeardownCall : Type :=
  | DisconnectAllSignals (signalManager : nat)
  | Unregister (screenWatcher : nat)
  | Finalize (settingsDb : nat)
  | LogDisabled.

(** [constructor], lines 9-11: it stores [meta] and leaves the three fields
    unset. *)
Definition constructed : Handles := mkHandles None None None.

(** [disable], lines 40-57. *)
Definition disable (hd : Handles) : Handles * list TeardownCall :=
  let calls1 :=
    match _signalManager hd with
    | Some o => [DisconnectAllSignals o]
    | None => []
    end in
  let calls2 :=
    match _screenWatcher hd with
    | Some o => [Unregister o]
    | None => []
    end in
  let calls3 :=
    match _settingsDb hd with
    | Some o => [Finalize o]
    | None => []
    end in
  (mkHandles None None None, calls1 ++ calls2 ++ calls3 ++ [LogDisabled]).

(** The events of a trace, without the desktops they are delivered on. *)
Definition events (trace : list (Host * Event)) : list Event := trace.*2.

(** Remembering is off and the monitor "HDMI-1" is loaded and unloaded
    while windows come and go. *)
Definition example_not_remembering : list (Host * Event) :=
  [(example_host, OutputDisconnected "HDMI-1" rect_left 1000);
   (example_host, MonitorUnloaded "HDMI-1" rect_left);
   (example_host, MinimizeChanged false);
   (example_host, MonitorLoaded "HDMI-1" rect_right);
   (example_host, WindowRemoved 8)].

(** ** Binary64 arithmetic on safe integers

    The sum and the difference of two safe integers, when a safe integer
    too, is computed without rounding.  The proofs follow the specification
    of the format ([SpecFloat]): both operands are aligned on the smaller
    exponent, added as integers, and the result is rounded, which shifts out
    or in the zeros at its end and nothing else. *)

Lemma Zpos_iter_xO p k : Zpos (Pos.iter xO p k) = Zpos p * 2 ^ Zpos k.
Proof.
  revert p. induction k as [|k IH] using Pos.peano_ind; intros p.
  - simpl. lia.
  - rewrite Pos.iter_succ, Pos2Z.inj_xO, IH, Pos2Z.inj_succ, Z.pow_succ_r by lia.
    lia.
Qed.

Lemma Zpos_digits2_pos p : Zpos (digits2_pos p) = Z.log2 (Zpos p) + 1.
Proof.
  induction p as [p IH|p IH|]; cbn [digits2_pos].
  - rewrite Pos2Z.inj_succ, IH. rewrite Pos2Z.inj_xI, Z.log2_succ_double by lia. lia.
  - rewrite Pos2Z.inj_succ, IH. rewrite Pos2Z.inj_xO, Z.log2_double by lia. lia.
  - reflexivity.
Qed.

Lemma digits2_pos_scaled (M q : positive) k :
  0 <= k -> Zpos M = Zpos q * 2 ^ k ->
  Zpos (digits2_pos M) = Zpos (digits2_pos q) + k.
Proof.
  intros Hk HM. rewrite !Zpos_digits2_pos, HM, Z.log2_mul_pow2 by lia. lia.
Qed.

(** Shifting right the zero bits that a shift left put in is exact. *)
Lemma iter_shr_1_exact j q :
  iter_pos shr_1 j (Build_shr_record (Zpos (Pos.iter xO q j)) false false)
  = Build_shr_record (Zpos q) false false.
Proof.
  revert q. induction j as [j IH|j IH|]; intros q; cbn [iter_pos Pos.iter].
  - cbn [shr_1 orb]. by rewrite !IH.
  - by rewrite !IH.
  - reflexivity.
Qed.

Lemma shr_fexp_canonical mz ez :
  Zpos (digits2_pos mz) = 53 -> -1074 <= ez ->
  shr_fexp prec emax (Zpos mz) ez loc_Exact
  = (Build_shr_record (Zpos mz) false false, ez).
Proof.
  intros Hd He. unfold shr_fexp, Zdigits2. rewrite Hd.
  replace (fexp prec emax (53 + ez) - ez) with 0
    by (unfold fexp, SpecFloat.emin, prec, emax; lia).
  reflexivity.
Qed.

Lemma binary_round_aux_canonical s mz ez :
  Zpos (digits2_pos mz) = 53 -> -1074 <= ez <= 971 ->
  binary_round_aux prec emax s (Zpos mz) ez loc_Exact = S754_finite s mz ez.
Proof.
  intros Hd He. unfold binary_round_aux.
  rewrite shr_fexp_canonical by lia. cbn [shr_m loc_of_shr_record round_nearest_even].
  rewrite shr_fexp_canonical by lia. cbn [shr_m].
  replace (ez <=? emax - prec) with true; [done|].
  symmetry. apply Z.leb_le. unfold prec, emax. lia.
Qed.

Lemma Zpos_mantissa q :
  Zpos (digits2_pos q) <= 53 ->
  Zpos (mantissa q) = Zpos q * 2 ^ (53 - Zpos (digits2_pos q)).
Proof.
  intros Hd. unfold mantissa. rewrite Z2Pos.id; [done|].
  apply Z.mul_pos_pos; [lia|]. apply Z.pow_pos_nonneg; lia.
Qed.

Lemma digits2_pos_mantissa q :
  Zpos (digits2_pos q) <= 53 -> Zpos (digits2_pos (mantissa q)) = 53.
Proof.
  intros Hd.
  rewrite (digits2_pos_scaled (mantissa q) q (53 - Zpos (digits2_pos q))); [lia|lia|].
  by apply Zpos_mantissa.
Qed.

(** Rounding [q * 2^k] at exponent [-k] gives the number that holds [q]. *)
Lemma binary_round_scaled s (M q : positive) k :
  0 <= k <= 1000 -> Zpos M = Zpos q * 2 ^ k -> Zpos (digits2_pos q) <= 53 ->
  binary_round prec emax s M (- k) = S754_finite s (mantissa q) (exponent q).
Proof.
  intros Hk HM Hd.
  pose proof (digits2_pos_scaled M q k ltac:(lia) HM) as HdM.
  pose proof (Zpos_mantissa q Hd) as Hmant.
  pose proof (digits2_pos_mantissa q Hd) as Hdmant.
  assert (0 < Zpos (digits2_pos q)) as Hdpos by lia.
  unfold binary_round. rewrite HdM.
  replace (fexp prec emax (Z.pos (digits2_pos q) + k + - k)) with (exponent q)
    by (unfold fexp, SpecFloat.emin, prec, emax, exponent; lia).
  unfold shl_align.
  destruct (exponent q - - k) as [|t|t] eqn:Ht.
  - (* already aligned *)
    assert (M = mantissa q) as ->.
    { apply Pos2Z.inj. rewrite HM, Hmant. f_equal. f_equal. unfold exponent in Ht. lia. }
    replace (- k) with (exponent q) by lia.
    apply binary_round_aux_canonical; [done|unfold exponent; lia].
  - (* too many bits: the zeros at the end are shifted out *)
    unfold binary_round_aux.
    assert (shr_fexp prec emax (Zpos M) (- k) loc_Exact
            = (Build_shr_record (Zpos (mantissa q)) false false, exponent q)) as ->.
    { unfold shr_fexp, Zdigits2. rewrite HdM.
      replace (fexp prec emax (Z.pos (digits2_pos q) + k + - k) - - k)
        with (Zpos t)
        by (unfold fexp, SpecFloat.emin, prec, emax; unfold exponent in Ht; lia).
      cbn [shr shr_record_of_loc].
      assert (M = Pos.iter xO (mantissa q) t) as ->.
      { apply Pos2Z.inj.
        rewrite Zpos_iter_xO, HM, Hmant, <-Z.mul_assoc, <-Z.pow_add_r by lia.
        f_equal. f_equal. unfold exponent in Ht. lia. }
      rewrite iter_shr_1_exact. f_equal. unfold exponent in *. lia. }
    cbn [shr_m loc_of_shr_record round_nearest_even].
    rewrite shr_fexp_canonical by (done || unfold exponent; lia). cbn [shr_m].
    replace (exponent q <=? emax - prec) with true; [done|].
    symmetry. apply Z.leb_le. unfold exponent, prec, emax. lia.
  - (* too few bits: shifted left *)
    assert (Pos.iter xO M t = mantissa q) as ->.
    { apply Pos2Z.inj.
      rewrite Zpos_iter_xO, HM, Hmant, <-Z.mul_assoc, <-Z.pow_add_r by lia.
      f_equal. f_equal. unfold exponent in Ht. lia. }
    apply binary_round_aux_canonical; [done|unfold exponent; lia].
Qed.

Lemma safeInteger_digits q :
  safeInteger (Zpos q) -> Zpos (digits2_pos q) <= 53.
Proof.
  unfold safeInteger. intros Hq. rewrite Zpos_digits2_pos.
  assert (Z.log2 (Zpos q) < 53); [|lia].
  apply Z.log2_lt_pow2; lia.
Qed.

Lemma integerSF_pos q :
  safeInteger (Zpos q) ->
  integerSF (Zpos q) = S754_finite false (mantissa q) (exponent q).
Proof.
  intros Hq. unfold integerSF, binary_normalize.
  apply (binary_round_scaled false q q 0); [lia|lia|by apply safeInteger_digits].
Qed.

Lemma integerSF_neg q :
  safeInteger (Zneg q) ->
  integerSF (Zneg q) = S754_finite true (mantissa q) (exponent q).
Proof.
  intros Hq. unfold integerSF, binary_normalize.
  apply (binary_round_scaled true q q 0); [lia|lia|by apply safeInteger_digits].
Qed.

Lemma integerSF_finite n :
  safeInteger n -> n <> 0 ->
  integerSF n
  = S754_finite (n <? 0) (mantissa (Z.to_pos (Z.abs n)))
      (exponent (Z.to_pos (Z.abs n))).
Proof.
  intros Hn Hne. destruct n as [|q|q]; [done| |].
  - by apply integerSF_pos.
  - by apply integerSF_neg.
Qed.

(** An integer scaled by a power of two, at the opposite exponent, rounds
    to the number that holds the integer. *)
Lemma binary_normalize_scaled n k :
  0 <= k <= 1000 -> safeInteger n ->
  binary_normalize prec emax (n * 2 ^ k) (- k) false = integerSF n.
Proof.
  intros Hk Hn. assert (0 < 2 ^ k) as Hpow by (apply Z.pow_pos_nonneg; lia).
  destruct n as [|q|q].
  - reflexivity.
  - rewrite integerSF_pos by done.
    destruct (Zpos q * 2 ^ k) as [|M|M] eqn:HM; [nia| |nia].
    apply binary_round_scaled; [lia|done|by apply safeInteger_digits].
  - rewrite integerSF_neg by done.
    destruct (Zneg q * 2 ^ k) as [|M|M] eqn:HM; [nia|nia|].
    apply binary_round_scaled; [lia| |by apply (safeInteger_digits q)].
    nia.
Qed.

Lemma shl_align_fst m e ez :
  ez <= e -> Zpos (fst (shl_align m e ez)) = Zpos m * 2 ^ (e - ez).
Proof.
  intros Hle. unfold shl_align. destruct (ez - e) as [|d|d] eqn:Hd; [|lia|].
  - replace (e - ez) with 0 by lia. simpl. lia.
  - replace (e - ez) with (Zpos d) by lia. simpl. apply Zpos_iter_xO.
Qed.

Lemma aligned_value n ez :
  safeInteger n -> n <> 0 -> ez <= exponent (Z.to_pos (Z.abs n)) ->
  cond_Zopp (n <? 0)
    (Zpos (fst (shl_align (mantissa (Z.to_pos (Z.abs n)))
                  (exponent (Z.to_pos (Z.abs n))) ez)))
  = n * 2 ^ (- ez).
Proof.
  intros Hn Hne Hez.
  assert (Zpos (digits2_pos (Z.to_pos (Z.abs n))) <= 53) as Hd.
  { apply safeInteger_digits. unfold safeInteger in *. lia. }
  rewrite shl_align_fst, Zpos_mantissa by done.
  rewrite <-Z.mul_assoc, <-Z.pow_add_r by (unfold exponent in *; lia).
  replace (53 - Zpos (digits2_pos (Z.to_pos (Z.abs n)))
           + (exponent (Z.to_pos (Z.abs n)) - ez)) with (- ez)
    by (unfold exponent; lia).
  rewrite Z2Pos.id by lia.
  destruct (Z.ltb_spec n 0); simpl; lia.
Qed.

Lemma exponent_bounds q :
  Zpos (digits2_pos q) <= 53 -> -52 <= exponent q <= 0.
Proof. unfold exponent. lia. Qed.

Lemma SF64sub_safeInteger a b :
  safeInteger a -> safeInteger b -> safeInteger (a - b) ->
  SF64sub (integerSF a) (integerSF b) = integerSF (a - b).
Proof.
  intros Ha Hb Hab.
  destruct (decide (b = 0)) as [->|Hb0].
  { rewrite Z.sub_0_r. destruct a as [|q|q]; [reflexivity| |].
    - by rewrite integerSF_pos.
    - by rewrite integerSF_neg. }
  destruct (decide (a = 0)) as [->|Ha0].
  { destruct b as [|q|q]; [done| |].
    - change (0 - Zpos q) with (Zneg q).
      rewrite integerSF_pos, integerSF_neg by done. reflexivity.
    - change (0 - Zneg q) with (Zpos q).
      rewrite integerSF_neg, integerSF_pos by done. reflexivity. }
  rewrite (integerSF_finite a), (integerSF_finite b) by done.
  unfold SF64sub, SFsub.
  set (ea := exponent (Z.to_pos (Z.abs a))).
  set (eb := exponent (Z.to_pos (Z.abs b))).
  assert (-52 <= ea <= 0) as Hea.
  { apply exponent_bounds, safeInteger_digits. unfold safeInteger in *. lia. }
  assert (-52 <= eb <= 0) as Heb.
  { apply exponent_bounds, safeInteger_digits. unfold safeInteger in *. lia. }
  subst ea eb.
  rewrite !aligned_value by (done || lia).
  rewrite <-Z.mul_sub_distr_r.
  rewrite <-(Z.opp_involutive (Z.min _ _)) at 2.
  apply binary_normalize_scaled; [lia|done].
Qed.

Lemma SF64add_safeInteger a b :
  safeInteger a -> safeInteger b -> safeInteger (a + b) ->
  SF64add (integerSF a) (integerSF b) = integerSF (a + b).
Proof.
  intros Ha Hb Hab.
  destruct (decide (b = 0)) as [->|Hb0].
  { rewrite Z.add_0_r. destruct a as [|q|q]; [reflexivity| |].
    - by rewrite integerSF_pos.
    - by rewrite integerSF_neg. }
  destruct (decide (a = 0)) as [->|Ha0].
  { destruct b as [|q|q]; [done| |].
    - change (0 + Zpos q) with (Zpos q). by rewrite integerSF_pos.
    - change (0 + Zneg q) with (Zneg q). by rewrite integerSF_neg. }
  rewrite (integerSF_finite a), (integerSF_finite b) by done.
  unfold SF64add, SFadd.
  set (ea := exponent (Z.to_pos (Z.abs a))).
  set (eb := exponent (Z.to_pos (Z.abs b))).
  assert (-52 <= ea <= 0) as Hea.
  { apply exponent_bounds, safeInteger_digits. unfold safeInteger in *. lia. }
  assert (-52 <= eb <= 0) as Heb.
  { apply exponent_bounds, safeInteger_digits. unfold safeInteger in *. lia. }
  subst ea eb.
  rewrite !aligned_value by (done || lia).
  rewrite <-Z.mul_add_distr_r.
  rewrite <-(Z.opp_involutive (Z.min _ _)) at 2.
  apply binary_normalize_scaled; [lia|done].
Qed.

Lemma valid_binary_integerSF n : safeInteger n -> valid_binary (integerSF n) = true.
Proof.
  intros Hn. destruct (decide (n = 0)) as [->|Hne]; [reflexivity|].
  rewrite integerSF_finite by done.
  assert (Zpos (digits2_pos (Z.to_pos (Z.abs n))) <= 53) as Hd.
  { apply safeInteger_digits. unfold safeInteger in *. lia. }
  unfold SpecFloat.valid_binary, bounded, canonical_mantissa.
  rewrite digits2_pos_mantissa by done.
  apply andb_true_intro. split.
  - apply Z.eqb_eq. unfold fexp, SpecFloat.emin, prec, emax, exponent. lia.
  - apply Z.leb_le. unfold prec, emax, exponent. lia.
Qed.

Lemma Prim2SF_ofInteger n : safeInteger n -> Prim2SF (ofInteger n) = integerSF n.
Proof. intros Hn. apply Prim2SF_SF2Prim. by apply valid_binary_integerSF. Qed.

Theorem sub_ofInteger a b :
  safeInteger a -> safeInteger b -> safeInteger (a - b) ->
  (ofInteger a - ofInteger b)%float = ofInteger (a - b).
Proof.
  intros Ha Hb Hab. apply Prim2SF_inj.
  rewrite sub_spec, !Prim2SF_ofInteger by done. by apply SF64sub_safeInteger.
Qed.

Theorem add_ofInteger a b :
  safeInteger a -> safeInteger b -> safeInteger (a + b) ->
  (ofInteger a + ofInteger b)%float = ofInteger (a + b).
Proof.
  intros Ha Hb Hab. apply Prim2SF_inj.
  rewrite add_spec, !Prim2SF_ofInteger by done. by apply SF64add_safeInteger.
Qed.

(** ** Record updates *)

Lemma saved_with_saved m st :
  _windowsSavedStates (with_windowsSavedStates m st) = m.
Proof. reflexivity. Qed.

Lemma disc_with_saved m st :
  _monitorDisconnectedWindows (with_windowsSavedStates m st)
  = _monitorDisconnectedWindows st.
Proof. reflexivity. Qed.

Lemma saved_with_disc d st :
  _windowsSavedStates (with_monitorDisconnectedWindows d st)
  = _windowsSavedStates st.
Proof. reflexivity. Qed.

Lemma disc_with_disc d st :
  _monitorDisconnectedWindows (with_monitorDisconnectedWindows d st) = d.
Proof. reflexivity. Qed.

(** ** The disconnect handler *)

Lemma recordState_lookup_eq out t w ws saved :
  recordState out t w ws saved !! w = Some (recorded out t ws (saved !! w)).
Proof.
  unfold recordState, recorded.
  destruct (saved !! w) as [m|] eqn:Hw; simpl.
  - rewrite Hw; simpl. destruct (m !! out); [done|]. by rewrite lookup_insert_eq.
  - rewrite lookup_insert_eq; simpl. rewrite lookup_empty.
    by rewrite lookup_insert_eq.
Qed.

Lemma recordState_lookup_ne out t w ws saved w' :
  w ≠ w' → recordState out t w ws saved !! w' = saved !! w'.
Proof.
  intros Hne. unfold recordState.
  destruct (saved !! w) as [m|] eqn:Hw; simpl.
  - rewrite Hw; simpl. destruct (m !! out); [done|]. by rewrite lookup_insert_ne.
  - rewrite lookup_insert_eq; simpl. rewrite lookup_empty.
    by rewrite !lookup_insert_ne.
Qed.

Lemma recorded_nonempty out t ws old :
  (∀ m, old = Some m → m ≠ ∅) → recorded out t ws old ≠ ∅.
Proof.
  intros Hold. unfold recorded.
  destruct (default ∅ old !! out) as [e|] eqn:He.
  - intros Hempty. rewrite Hempty, lookup_empty in He. discriminate.
  - apply insert_non_empty.
Qed.

Lemma recorded_pending out t ws m e :
  m !! out = Some e → recorded out t ws (Some m) = m.
Proof. intros He. unfold recorded; simpl. by rewrite He. Qed.

Lemma recorded_lookup out t ws old o e :
  recorded out t ws old !! o = Some e →
  default ∅ old !! o = Some e ∨ (o = out ∧ e = mkSavedState ws t).
Proof.
  unfold recorded. destruct (default ∅ old !! out) eqn:Hout; [by left|].
  rewrite lookup_insert. case_decide; [|by left].
  intros [= <-]. by right.
Qed.

Lemma recorded_is_Some out t ws old : is_Some (recorded out t ws old !! out).
Proof.
  unfold recorded. destruct (default ∅ old !! out) eqn:Hout; [by rewrite Hout|].
  by rewrite lookup_insert_eq.
Qed.

Lemma recorded_fresh out t ws old :
  default ∅ old !! out = None →
  recorded out t ws old !! out = Some (mkSavedState ws t).
Proof. intros Hout. unfold recorded. rewrite Hout. by rewrite lookup_insert_eq. Qed.

Section disconnect.
Context (h : Host) (outputName : Output) (monitorRect : MonitorRect.t)
        (now : Timestamp).

Local Abbreviation body := (disconnectedWindow h outputName monitorRect now).

Lemma body_settings st w : _settings (body st w) = _settings st.
Proof.
  unfold disconnectedWindow.
  destruct (isInside _ _ _); simpl; [|done].
  destruct (_ && _); [|done].
  by destruct (callSafely _).
Qed.

Lemma body_saved st w :
  _windowsSavedStates (body st w)
  = match captured h monitorRect st w with
    | Some ws => recordState outputName now w ws (_windowsSavedStates st)
    | None => _windowsSavedStates st
    end.
Proof.
  unfold disconnectedWindow, captured.
  destruct (isInside _ _ _); simpl; [|done].
  destruct (rememberState _); simpl; [|done].
  destruct (allowsMove _ _); simpl; [|done].
  by destruct (save _ _).
Qed.

Lemma body_disc st w :
  _monitorDisconnectedWindows (body st w)
  = if isInside (windowSaver h) w monitorRect
    then alter (λ s, {[w]} ∪ s) outputName (_monitorDisconnectedWindows st)
    else _monitorDisconnectedWindows st.
Proof.
  unfold disconnectedWindow.
  destruct (isInside _ _ _); simpl; [|done].
  destruct (_ && _); [|done].
  by destruct (callSafely _).
Qed.

Lemma loop_settings l st : _settings (foldl body st l) = _settings st.
Proof.
  revert st. induction l as [|w l IH]; intros st; simpl; [done|].
  by rewrite IH, body_settings.
Qed.

(** The stranded set of the output grows by the windows inside the
    rectangle; the sets of the other outputs stay. *)
Lemma loop_disc_eq l st :
  _monitorDisconnectedWindows (foldl body st l) !! outputName
  = (λ s, s ∪ list_to_set
                (filter (λ w, isInside (windowSaver h) w monitorRect = true) l))
      <$> (_monitorDisconnectedWindows st !! outputName).
Proof.
  revert st. induction l as [|w l IH]; intros st; simpl.
  - destruct (_ !! _); simpl; [|done]. f_equal.
    by rewrite ?filter_nil, ?list_to_set_nil, (right_id_L ∅ (∪)).
  - rewrite IH, body_disc. rewrite filter_cons.
    destruct (isInside _ _ _) eqn:Hin.
    + rewrite decide_True by done. rewrite lookup_alter_eq.
      destruct (_ !! _) as [s|]; simpl; [|done]. f_equal.
      by rewrite (comm_L (∪) {[w]} s), (assoc_L (∪)).
    + rewrite decide_False by done. done.
Qed.

Lemma loop_disc_ne l st o :
  o ≠ outputName →
  _monitorDisconnectedWindows (foldl body st l) !! o
  = _monitorDisconnectedWindows st !! o.
Proof.
  intros Hne. revert st. induction l as [|w l IH]; intros st; simpl; [done|].
  rewrite IH, body_disc. destruct (isInside _ _ _); [|done].
  by rewrite lookup_alter_ne.
Qed.

(** A window's saved states are touched only when the loop reaches it. *)
Lemma body_saved_ne st w w' :
  w ≠ w' →
  _windowsSavedStates (body st w) !! w' = _windowsSavedStates st !! w'.
Proof.
  intros Hne. rewrite body_saved. destruct (captured h monitorRect st w); [|done].
  by apply recordState_lookup_ne.
Qed.

Lemma body_saved_eq st w :
  _windowsSavedStates (body st w) !! w
  = match captured h monitorRect st w with
    | Some ws => Some (recorded outputName now ws (_windowsSavedStates st !! w))
    | None => _windowsSavedStates st !! w
    end.
Proof.
  rewrite body_saved. destruct (captured h monitorRect st w); [|done].
  apply recordState_lookup_eq.
Qed.

(** A pending state of this output is kept as it is. *)
Lemma body_pending st w0 w m e :
  _windowsSavedStates st !! w = Some m → m !! outputName = Some e →
  _windowsSavedStates (body st w0) !! w = Some m.
Proof.
  intros Hw He. destruct (decide (w0 = w)) as [->|Hne].
  - rewrite body_saved_eq, Hw. destruct (captured h monitorRect st w); [|done].
    by erewrite recorded_pending.
  - by rewrite body_saved_ne.
Qed.

Lemma loop_pending l st w m e :
  _windowsSavedStates st !! w = Some m → m !! outputName = Some e →
  _windowsSavedStates (foldl body st l) !! w = Some m.
Proof.
  revert st. induction l as [|w0 l IH]; intros st Hw He; simpl; [done|].
  apply IH; [|done]. by eapply body_pending.
Qed.

(** Every state found after the loop was there before, or was recorded by
    this event: under this output, with this event's time. *)
Lemma body_origin st w0 w m' o e :
  _windowsSavedStates (body st w0) !! w = Some m' → m' !! o = Some e →
  (∃ m, _windowsSavedStates st !! w = Some m ∧ m !! o = Some e)
  ∨ (o = outputName ∧ time e = now ∧ captured h monitorRect st w = Some (windowState e)).
Proof.
  intros Hw He. destruct (decide (w0 = w)) as [->|Hne].
  - rewrite body_saved_eq in Hw. destruct (captured h monitorRect st w) as [ws|] eqn:Hc.
    + injection Hw as <-. apply recorded_lookup in He as [He|[-> ->]].
      * left. destruct (_windowsSavedStates st !! w) as [m|]; simpl in He.
        -- eauto.
        -- by rewrite lookup_empty in He.
      * by right.
    + left. eauto.
  - rewrite body_saved_ne in Hw by done. left. eauto.
Qed.

Lemma loop_origin l st w m' o e :
  _windowsSavedStates (foldl body st l) !! w = Some m' → m' !! o = Some e →
  (∃ m, _windowsSavedStates st !! w = Some m ∧ m !! o = Some e)
  ∨ (o = outputName ∧ time e = now).
Proof.
  revert st. induction l as [|w0 l IH]; intros st Hw He; simpl in *; [eauto|].
  destruct (IH _ Hw He) as [(m & Hm & Hme)|?]; [|by right].
  destruct (body_origin _ _ _ _ _ _ Hm Hme) as [?|(? & ? & _)]; [by left|by right].
Qed.
End disconnect.

(** ** The load handler *)

Lemma forgetYounger_lookup t m k :
  forgetYounger t m !! k
  = match m !! k with
    | Some e => if decide (t ≤ time e) then None else Some e
    | None => None
    end.
Proof.
  unfold forgetYounger. destruct (m !! k) as [e|] eqn:Hk.
  - case_decide as Ht.
    + apply map_lookup_filter_None. right. intros e' He'. simpl.
      rewrite Hk in He'. injection He' as <-. tauto.
    + apply map_lookup_filter_Some. done.
  - apply map_lookup_filter_None. by left.
Qed.

Lemma loadedStates_lookup out m e k :
  m !! out = Some e →
  loadedStates out m !! k
  = if decide (k = out) then None
    else match m !! k with
         | Some e' => if decide (time e ≤ time e') then None else Some e'
         | None => None
         end.
Proof.
  intros He. unfold loadedStates. rewrite He, forgetYounger_lookup.
  case_decide as Hk.
  - subst k. by rewrite lookup_delete_eq.
  - by rewrite lookup_delete_ne.
Qed.

Lemma loadedStates_no_match out m : m !! out = None → loadedStates out m = m.
Proof. intros He. unfold loadedStates. by rewrite He. Qed.

Section load.
Context (h : Host) (outputName : Output) (monitorRect : MonitorRect.t).

Local Abbreviation body := (loadedWindow h outputName monitorRect).

Lemma loadedWindow_settings acc entry :
  _settings (body acc entry).1 = _settings acc.1.
Proof.
  destruct entry as [w m]. unfold loadedWindow.
  by destruct (m !! outputName).
Qed.

Lemma loadedWindow_disc acc entry :
  _monitorDisconnectedWindows (body acc entry).1
  = _monitorDisconnectedWindows acc.1.
Proof.
  destruct entry as [w m]. unfold loadedWindow.
  by destruct (m !! outputName).
Qed.

Lemma loadedWindow_calls acc entry :
  (body acc entry).2 = acc.2 ++ restoreCall h outputName monitorRect entry.
Proof.
  destruct entry as [w m]. unfold loadedWindow, restoreCall; simpl.
  destruct (m !! outputName); simpl; [done|]. by rewrite app_nil_r.
Qed.

Lemma loadedWindow_saved_ne acc w m w' :
  w ≠ w' →
  _windowsSavedStates (body acc (w, m)).1 !! w'
  = _windowsSavedStates acc.1 !! w'.
Proof.
  intros Hne. unfold loadedWindow.
  destruct (m !! outputName); simpl; [|done]. by rewrite lookup_insert_ne.
Qed.

Lemma loadedWindow_saved_eq acc w m :
  _windowsSavedStates acc.1 !! w = Some m →
  _windowsSavedStates (body acc (w, m)).1 !! w
  = Some (loadedStates outputName m).
Proof.
  intros Hw. unfold loadedWindow, loadedStates.
  destruct (m !! outputName); simpl; [|done]. by rewrite lookup_insert_eq.
Qed.

(** The loop over a list of entries with distinct keys, each holding the
    inner map the state has under its key. *)
Lemma loop_loaded l acc :
  NoDup l.*1 →
  (∀ w m, (w, m) ∈ l → _windowsSavedStates acc.1 !! w = Some m) →
  _settings (foldl body acc l).1 = _settings acc.1
  ∧ _monitorDisconnectedWindows (foldl body acc l).1
    = _monitorDisconnectedWindows acc.1
  ∧ (foldl body acc l).2
    = acc.2 ++ (l ≫= restoreCall h outputName monitorRect)
  ∧ ∀ w, _windowsSavedStates (foldl body acc l).1 !! w
         = match (list_to_map l : gmap Window _) !! w with
           | Some m => Some (loadedStates outputName m)
           | None => _windowsSavedStates acc.1 !! w
           end.
Proof.
  revert acc. induction l as [|[w0 m0] l IH]; intros acc Hnd Hl.
  - simpl. rewrite app_nil_r. repeat split; try done.
  - apply NoDup_cons in Hnd as [Hw0 Hnd]. simpl in Hw0.
    destruct (IH (body acc (w0, m0)) Hnd) as (Hs & Hd & Hc & Hm).
    { intros w m Hwm. rewrite loadedWindow_saved_ne.
      - apply Hl. by right.
      - intros Heq. apply Hw0. rewrite Heq.
        apply list_elem_of_fmap. by exists (w, m). }
    cbn [foldl]. rewrite Hs, Hd, Hc, bind_cons.
    rewrite loadedWindow_settings, loadedWindow_disc, loadedWindow_calls.
    repeat split; try done.
    + by rewrite <-app_assoc.
    + intros w. rewrite Hm, list_to_map_cons.
      destruct (decide (w = w0)) as [->|Hne].
      * rewrite lookup_insert_eq.
        rewrite (not_elem_of_list_to_map_1 l w0 Hw0).
        apply loadedWindow_saved_eq. apply Hl. by left.
      * rewrite lookup_insert_ne by done.
        destruct (list_to_map l !! w); [done|].
        by apply loadedWindow_saved_ne.
Qed.

Lemma onMonitorLoaded_settings st :
  _settings (_onMonitorLoaded h outputName monitorRect st).1 = _settings st.
Proof.
  unfold _onMonitorLoaded.
  apply (loop_loaded (map_to_list (_windowsSavedStates st)) (st, [])).
  - apply NoDup_fst_map_to_list.
  - intros w m. apply elem_of_map_to_list.
Qed.

Lemma onMonitorLoaded_disc st :
  _monitorDisconnectedWindows (_onMonitorLoaded h outputName monitorRect st).1
  = _monitorDisconnectedWindows st.
Proof.
  unfold _onMonitorLoaded.
  apply (loop_loaded (map_to_list (_windowsSavedStates st)) (st, [])).
  - apply NoDup_fst_map_to_list.
  - intros w m. apply elem_of_map_to_list.
Qed.

Lemma onMonitorLoaded_calls st :
  (_onMonitorLoaded h outputName monitorRect st).2
  = map_to_list (_windowsSavedStates st)
      ≫= restoreCall h outputName monitorRect.
Proof.
  unfold _onMonitorLoaded.
  apply (loop_loaded (map_to_list (_windowsSavedStates st)) (st, [])).
  - apply NoDup_fst_map_to_list.
  - intros w m. apply elem_of_map_to_list.
Qed.

Lemma onMonitorLoaded_saved st :
  _windowsSavedStates (_onMonitorLoaded h outputName monitorRect st).1
  = loadedStates outputName <$> _windowsSavedStates st.
Proof.
  apply map_eq. intros w. rewrite lookup_fmap. unfold _onMonitorLoaded.
  destruct (loop_loaded (map_to_list (_windowsSavedStates st)) (st, []))
    as (_ & _ & _ & Hm).
  - apply NoDup_fst_map_to_list.
  - intros w' m. apply elem_of_map_to_list.
  - rewrite Hm, list_to_map_to_list. simpl.
    by destruct (_windowsSavedStates st !! w).
Qed.

(** The restore calls made for one window: one when it has a state for the
    output, none otherwise. *)
Lemma restoresOf_entries l w :
  NoDup l.*1 →
  restoresOf w (l ≫= restoreCall h outputName monitorRect)
  = match (list_to_map l : gmap Window _) !! w with
    | Some m =>
        match m !! outputName with
        | Some e => [(toAbsolute monitorRect (windowState e), monitorRect)]
        | None => []
        end
    | None => []
    end.
Proof.
  induction l as [|[w0 m0] l IH]; intros Hnd; [done|].
  apply NoDup_cons in Hnd as [Hw0 Hnd]. simpl in Hw0.
  unfold restoresOf in *.
  rewrite bind_cons, bind_app, (IH Hnd), list_to_map_cons.
  destruct (decide (w = w0)) as [->|Hne].
  - rewrite lookup_insert_eq, (not_elem_of_list_to_map_1 l w0 Hw0).
    rewrite app_nil_r. unfold restoreCall; simpl.
    destruct (m0 !! outputName); simpl; [|done].
    by rewrite decide_True.
  - rewrite lookup_insert_ne by done.
    unfold restoreCall; simpl.
    destruct (m0 !! outputName); simpl; [|done].
    by rewrite decide_False.
Qed.

Lemma onMonitorLoaded_restoresOf st w :
  restoresOf w (_onMonitorLoaded h outputName monitorRect st).2
  = match _windowsSavedStates st !! w with
    | Some m =>
        match m !! outputName with
        | Some e => [(toAbsolute monitorRect (windowState e), monitorRect)]
        | None => []
        end
    | None => []
    end.
Proof.
  rewrite onMonitorLoaded_calls, restoresOf_entries.
  - by rewrite list_to_map_to_list.
  - apply NoDup_fst_map_to_list.
Qed.
End load.

(** ** Consequences for the disconnect handler *)

Section disconnect_facts.
Context (h : Host) (outputName : Output) (monitorRect : MonitorRect.t)
        (now : Timestamp).

Local Abbreviation body := (disconnectedWindow h outputName monitorRect now).

Lemma captured_body st w0 w :
  captured h monitorRect (body st w0) w = captured h monitorRect st w.
Proof. unfold captured. by rewrite body_settings. Qed.

(** A window the loop reaches, whose state is captured and which has no
    pending state of this output, gets the captured state recorded with
    this event's time. *)
Lemma loop_fresh l st w ws :
  w ∈ l → captured h monitorRect st w = Some ws →
  default ∅ (_windowsSavedStates st !! w) !! outputName = None →
  ∃ m', _windowsSavedStates (foldl body st l) !! w = Some m'
        ∧ m' !! outputName = Some (mkSavedState ws now).
Proof.
  revert st. induction l as [|w0 l IH]; intros st Hin Hc Hnone.
  - by apply elem_of_nil in Hin.
  - cbn [foldl]. destruct (decide (w0 = w)) as [->|Hne].
    + exists (recorded outputName now ws (_windowsSavedStates st !! w)).
      pose proof (recorded_fresh outputName now ws _ Hnone) as Hrec.
      split; [|done].
      eapply loop_pending; [|exact Hrec].
      by rewrite body_saved_eq, Hc.
    + apply elem_of_cons in Hin as [->|Hin]; [done|].
      apply IH; [done| |].
      * by rewrite captured_body.
      * by rewrite body_saved_ne.
Qed.

Lemma onOutputDisconnected_fresh st w ws :
  w ∈ list_windows h → captured h monitorRect st w = Some ws →
  default ∅ (_windowsSavedStates st !! w) !! outputName = None →
  ∃ m', _windowsSavedStates
          (_onOutputDisconnected h outputName monitorRect now st) !! w
        = Some m'
        ∧ m' !! outputName = Some (mkSavedState ws now).
Proof. intros Hin Hc Hnone. unfold _onOutputDisconnected. by apply loop_fresh. Qed.

Lemma onOutputDisconnected_settings st :
  _settings (_onOutputDisconnected h outputName monitorRect now st)
  = _settings st.
Proof. unfold _onOutputDisconnected. by rewrite loop_settings. Qed.

Lemma onOutputDisconnected_disc_eq st :
  _monitorDisconnectedWindows
    (_onOutputDisconnected h outputName monitorRect now st) !! outputName
  = Some (list_to_set
            (filter (λ w, isInside (windowSaver h) w monitorRect = true)
               (list_windows h))).
Proof.
  unfold _onOutputDisconnected. rewrite loop_disc_eq, disc_with_disc.
  rewrite lookup_insert_eq. simpl. f_equal. apply (left_id_L ∅ (∪)).
Qed.

Lemma onOutputDisconnected_disc_ne st o :
  o ≠ outputName →
  _monitorDisconnectedWindows
    (_onOutputDisconnected h outputName monitorRect now st) !! o
  = _monitorDisconnectedWindows st !! o.
Proof.
  intros Hne. unfold _onOutputDisconnected.
  rewrite loop_disc_ne by done. rewrite disc_with_disc.
  by rewrite lookup_insert_ne.
Qed.

(** The loop keeps the invariant of the data model. *)
Lemma body_nonEmpty st w :
  savedStatesNonEmpty st → savedStatesNonEmpty (body st w).
Proof.
  unfold savedStatesNonEmpty. rewrite !map_Forall_lookup.
  intros Hinv w' m Hm. destruct (decide (w = w')) as [->|Hne].
  - rewrite body_saved_eq in Hm.
    destruct (captured h monitorRect st w'); [|by eapply Hinv].
    injection Hm as <-. apply recorded_nonempty.
    intros m0 Hm0. by eapply Hinv.
  - rewrite body_saved_ne in Hm by done. by eapply Hinv.
Qed.

Lemma loop_nonEmpty l st :
  savedStatesNonEmpty st → savedStatesNonEmpty (foldl body st l).
Proof.
  revert st. induction l as [|w l IH]; intros st Hinv; [done|].
  cbn [foldl]. by apply IH, body_nonEmpty.
Qed.
End disconnect_facts.

(** ** Claims *)

(** C4 (first capture wins).  When a window already has a pending state for
    an output, a further disconnect of that output leaves the window's saved
    states as they were: the pending state and its time are kept and the new
    capture is discarded. *)
Theorem C4_first_capture_wins
    (h : Host) (outputName : Output) (monitorRect : MonitorRect.t)
    (now : Timestamp) (st : Extension) (w : Window)
    (m : gmap Output SavedState) (e : SavedState) :
  _windowsSavedStates st !! w = Some m →
  m !! outputName = Some e →
  _windowsSavedStates (_onOutputDisconnected h outputName monitorRect now st) !! w
  = Some m
  ∧ (_windowsSavedStates (_onOutputDisconnected h outputName monitorRect now st)
       !! w ≫= (.!! outputName)) = Some e.
Proof.
  intros Hw He.
  assert (_windowsSavedStates
            (_onOutputDisconnected h outputName monitorRect now st) !! w
          = Some m) as Hkept.
  { unfold _onOutputDisconnected. by eapply loop_pending. }
  split; [done|]. by rewrite Hkept.
Qed.

(** C6 (stranded set).  After a disconnect the stranded set of the output is
    the set of the listed windows that the codec places inside the rectangle,
    whatever set the output had before, whatever the settings are, whether a
    window is movable and whether its capture succeeded. *)
Theorem C6_stranded_set
    (h : Host) (outputName : Output) (monitorRect : MonitorRect.t)
    (now : Timestamp) (st : Extension) :
  ∃ stranded : gset Window,
    _monitorDisconnectedWindows
      (_onOutputDisconnected h outputName monitorRect now st) !! outputName
    = Some stranded
    ∧ ∀ w, w ∈ stranded
           ↔ w ∈ list_windows h ∧ isInside (windowSaver h) w monitorRect = true.
Proof.
  eexists. split; [apply onOutputDisconnected_disc_eq|].
  intros w. rewrite elem_of_list_to_set, list_elem_of_filter. tauto.
Qed.

Example example_pending_saved :
  _windowsSavedStates example_pending = {[ 7%nat := {[ "HDMI-1" := example_entry ]} ]}.
Proof. reflexivity. Qed.

Example example_pending_stranded :
  _monitorDisconnectedWindows example_pending = {[ "HDMI-1" := {[ 7%nat ]} ]}.
Proof. reflexivity. Qed.

(** C4 at the example: "HDMI-1" disconnects again at time 3000, with the
    window found at rectangle-relative (2020,50) this time; the state of
    time 1000 stays. *)
Lemma C4_first_capture_wins_witness :
  _windowsSavedStates example_pending !! 7%nat
  = Some {[ "HDMI-1" := example_entry ]}
  ∧ ({[ "HDMI-1" := example_entry ]} : gmap Output SavedState) !! "HDMI-1"
    = Some example_entry
  ∧ _windowsSavedStates
      (_onOutputDisconnected example_host "HDMI-1"
         (MonitorRect.mk (-1920) 0 3840 1080) 3000 example_pending) !! 7%nat
    = Some {[ "HDMI-1" := example_entry ]}.
Proof.
  split; [reflexivity|]. split; [reflexivity|].
  apply (C4_first_capture_wins example_host "HDMI-1"
           (MonitorRect.mk (-1920) 0 3840 1080) 3000 example_pending 7%nat
           {[ "HDMI-1" := example_entry ]} example_entry);
    reflexivity.
Defined.

(** C5, as stated, fails: the coordinates are JS Numbers, and the two
    transforms round.  With [x = 2^53] and [R.x = -1] the difference
    [2^53 + 1] is rounded to [2^53], and adding [R.x] back gives
    [2^53 - 1]. *)
Lemma C5_counterexample :
  toAbsolute (MonitorRect.mk (-1) 0 1920 1080)
    (toRelative (MonitorRect.mk (-1) 0 1920 1080)
       (WindowState.mk 9007199254740992 50 []))
  = WindowState.mk 9007199254740991 50 []
  ∧ toAbsolute (MonitorRect.mk (-1) 0 1920 1080)
      (toRelative (MonitorRect.mk (-1) 0 1920 1080)
         (WindowState.mk 9007199254740992 50 []))
    ≠ WindowState.mk 9007199254740992 50 [].
Proof.
  split; [reflexivity|].
  intros Hsame. apply (f_equal WindowState.x) in Hsame.
  apply FloatAxioms.Leibniz.eqb_spec in Hsame. vm_compute in Hsame.
  discriminate.
Qed.

(** C5, amended (coordinate round trip).  For a point and rectangles whose
    coordinates are safe integers: when [x - R.x] and [y - R.y] are safe
    integers, making the point relative to [R] and absolute again with [R]
    gives the point back; when [x - R.x + R'.x] and [y - R.y + R'.y] are safe
    integers too, making it absolute with [R'] gives
    [(x - R.x + R'.x, y - R.y + R'.y)].  Through the handlers: a window
    captured at the disconnect of an output at [R], with no state pending for
    that output, is restored exactly once when the output loads at [R'], at
    that point and with [R']. *)
Theorem C5_coordinate_round_trip
    (h h' : Host) (outputName : Output) (R R' : MonitorRect.t)
    (now : Timestamp) (st : Extension) (w : Window) (ws : WindowState.t)
    (x y rx ry rx' ry' : Z) :
  rememberState (_settings st) = true →
  w ∈ list_windows h →
  isInside (windowSaver h) w R = true →
  allowsMove (windowSaver h) w = true →
  save (windowSaver h) w = Returned ws →
  default ∅ (_windowsSavedStates st !! w) !! outputName = None →
  WindowState.x ws = ofInteger x ∧ WindowState.y ws = ofInteger y →
  MonitorRect.x R = ofInteger rx ∧ MonitorRect.y R = ofInteger ry →
  MonitorRect.x R' = ofInteger rx' ∧ MonitorRect.y R' = ofInteger ry' →
  Forall safeInteger
    [x; rx; rx'; x - rx; x - rx + rx'; y; ry; ry'; y - ry; y - ry + ry'] →
  toAbsolute R (toRelative R ws) = ws
  ∧ toAbsolute R' (toRelative R ws)
    = WindowState.mk (ofInteger (x - rx + rx')) (ofInteger (y - ry + ry'))
        (WindowState.payload ws)
  ∧ restoresOf w
      (_onMonitorLoaded h' outputName R'
         (_onOutputDisconnected h outputName R now st)).2
    = [(WindowState.mk (ofInteger (x - rx + rx')) (ofInteger (y - ry + ry'))
          (WindowState.payload ws), R')].
Proof.
  intros Hremember Hin Hinside Hmove Hsave Hnone [Hx Hy] [Hrx Hry] [Hrx' Hry']
    Hsafe.
  repeat (apply Forall_cons in Hsafe as [? Hsafe]).
  assert (toAbsolute R' (toRelative R ws)
          = WindowState.mk (ofInteger (x - rx + rx')) (ofInteger (y - ry + ry'))
              (WindowState.payload ws)) as Hmoved.
  { unfold toAbsolute, toRelative; simpl. rewrite Hx, Hy, Hrx, Hry, Hrx', Hry'.
    by rewrite !sub_ofInteger, !add_ofInteger. }
  split; [|split; [done|]].
  - destruct ws as [wx wy p]. unfold toAbsolute, toRelative; simpl in *.
    rewrite Hx, Hy, Hrx, Hry.
    rewrite !sub_ofInteger, !add_ofInteger by (done || by rewrite Z.sub_add).
    by rewrite !Z.sub_add.
  - destruct (onOutputDisconnected_fresh h outputName R now st w
                (toRelative R ws)) as (m' & Hm' & He); [done| |done|].
    { unfold captured. by rewrite Hinside, Hremember, Hmove, Hsave. }
    rewrite onMonitorLoaded_restoresOf, Hm', He. cbn [windowState].
    by rewrite Hmoved.
Qed.

(** C5 at the spec's scenario: saved at absolute (100,50) on
    rect{0,0,1920,1080}, restored at absolute (2020,50) when the output loads
    at rect{1920,0,1920,1080}. *)
Lemma C5_coordinate_round_trip_witness :
  toAbsolute rect_left (toRelative rect_left (example_state 7)) = example_state 7
  ∧ restoresOf 7
      (_onMonitorLoaded example_host "HDMI-1" rect_right
         (_onOutputDisconnected example_host "HDMI-1" rect_left 1000
            (enable (mkSettings true true)))).2
    = [(WindowState.mk 2020 50 [("width"%string, 800); ("height"%string, 600)],
        rect_right)].
Proof.
  destruct (C5_coordinate_round_trip example_host example_host "HDMI-1"
              rect_left rect_right 1000 (enable (mkSettings true true))
              7%nat (example_state 7) 100 50 0 0 1920 0)
    as (Hsame & _ & Hrestored);
    [reflexivity | constructor | reflexivity | reflexivity
    | reflexivity | reflexivity
    | split; reflexivity | split; reflexivity | split; reflexivity
    | repeat (constructor; [reflexivity|]); constructor | ].
  split; [exact Hsame | exact Hrestored].
Defined.

(** C7 (minimize only on a true unload).  Disconnect, connect, unload of one
    output, in this order and from any state: the connect has removed the
    output's stranded set, the unload finds none and calls nothing, so the
    three events together minimize no window. *)
Theorem C7_no_minimize_after_connect
    (h1 h2 h3 : Host) (outputName : Output) (r1 r2 r3 : MonitorRect.t)
    (now : Timestamp) (st : Extension) :
  _monitorDisconnectedWindows
    (_onOutputConnected outputName
       (_onOutputDisconnected h1 outputName r1 now st)) !! outputName = None
  ∧ (_onMonitorUnloaded h3 outputName
       (_onOutputConnected outputName
          (_onOutputDisconnected h1 outputName r1 now st))).2 = []
  ∧ minimized
      (run [(h1, OutputDisconnected outputName r1 now);
            (h2, OutputConnected outputName r2);
            (h3, MonitorUnloaded outputName r3)] st).2 = [].
Proof.
  assert (_monitorDisconnectedWindows
            (_onOutputConnected outputName
               (_onOutputDisconnected h1 outputName r1 now st)) !! outputName
          = None) as Hgone.
  { unfold _onOutputConnected. rewrite disc_with_disc. apply lookup_delete_eq. }
  assert ((_onMonitorUnloaded h3 outputName
             (_onOutputConnected outputName
                (_onOutputDisconnected h1 outputName r1 now st))).2 = [])
    as Hnone.
  { unfold _onMonitorUnloaded. by rewrite Hgone. }
  split; [done|]. split; [done|].
  unfold run; simpl. by rewrite Hnone.
Qed.

(** C8 (cleanup on removal).  After [_onWindowRemoved] the window has no
    entry in [_windowsSavedStates] and belongs to no stranded set; the saved
    states of the other windows, the outputs that have a stranded set and
    the other members of each set are as before. *)
Theorem C8_cleanup_on_removal (w : Window) (st : Extension) :
  _windowsSavedStates (_onWindowRemoved w st) !! w = None
  ∧ (∀ o s, _monitorDisconnectedWindows (_onWindowRemoved w st) !! o = Some s →
            w ∉ s)
  ∧ (∀ w', w' ≠ w →
           _windowsSavedStates (_onWindowRemoved w st) !! w'
           = _windowsSavedStates st !! w')
  ∧ (∀ o, _monitorDisconnectedWindows (_onWindowRemoved w st) !! o
          = (λ s : gset Window, s ∖ {[w]})
              <$> _monitorDisconnectedWindows st !! o)
  ∧ (∀ o s w', w' ≠ w →
       _monitorDisconnectedWindows st !! o = Some s →
       ∃ s', _monitorDisconnectedWindows (_onWindowRemoved w st) !! o = Some s'
             ∧ (w' ∈ s' ↔ w' ∈ s)).
Proof.
  unfold _onWindowRemoved; simpl. repeat split.
  - apply lookup_delete_eq.
  - intros o s. rewrite lookup_fmap.
    destruct (_monitorDisconnectedWindows st !! o) as [s0|]; simpl; [|done].
    intros [= <-] [_ Hw]%elem_of_difference.
    apply Hw. by apply elem_of_singleton.
  - intros w' Hne. by rewrite lookup_delete_ne.
  - intros o. by rewrite lookup_fmap.
  - intros o s w' Hne Hs. rewrite lookup_fmap, Hs. simpl.
    eexists. split; [done|].
    rewrite elem_of_difference, elem_of_singleton. tauto.
Qed.

(** C9 (clear on setting toggle).  When [rememberState] is set to false,
    [_windowsSavedStates] becomes empty and [_monitorDisconnectedWindows] is
    as before; when it is set to true neither map changes.  The callback
    itself decides on the value it finds in the settings. *)
Theorem C9_clear_on_toggle (h : Host) (st : Extension) :
  _windowsSavedStates (step h (RememberStateChanged false) st).1 = ∅
  ∧ _monitorDisconnectedWindows (step h (RememberStateChanged false) st).1
    = _monitorDisconnectedWindows st
  ∧ _windowsSavedStates (step h (RememberStateChanged true) st).1
    = _windowsSavedStates st
  ∧ _monitorDisconnectedWindows (step h (RememberStateChanged true) st).1
    = _monitorDisconnectedWindows st
  ∧ _windowsSavedStates (_onRememberStateChange st)
    = (if rememberState (_settings st) then _windowsSavedStates st else ∅)
  ∧ _monitorDisconnectedWindows (_onRememberStateChange st)
    = _monitorDisconnectedWindows st.
Proof.
  repeat split; try reflexivity.
  - unfold _onRememberStateChange. by destruct (rememberState (_settings st)).
  - unfold _onRememberStateChange. by destruct (rememberState (_settings st)).
Qed.

(** C3 (conflict resolution).  When a monitor loads on an output for which a
    window has a saved state: that state is removed, every other state of the
    window whose time is at or after the matched one's is removed, the older
    ones stay, and the window is restored exactly once, with the matched
    state (made absolute) and the loaded rectangle; nothing is restored from
    the other removed states. *)
Theorem C3_conflict_resolution
    (h : Host) (outputName : Output) (monitorRect : MonitorRect.t)
    (st : Extension) (w : Window) (m : gmap Output SavedState)
    (e : SavedState) :
  _windowsSavedStates st !! w = Some m →
  m !! outputName = Some e →
  ∃ m',
    _windowsSavedStates (_onMonitorLoaded h outputName monitorRect st).1 !! w
    = Some m'
    ∧ m' !! outputName = None
    ∧ (∀ k e', m !! k = Some e' → time e ≤ time e' → m' !! k = None)
    ∧ (∀ k e', k ≠ outputName → m !! k = Some e' → time e' < time e →
               m' !! k = Some e')
    ∧ restoresOf w (_onMonitorLoaded h outputName monitorRect st).2
      = [(toAbsolute monitorRect (windowState e), monitorRect)].
Proof.
  intros Hw He. exists (loadedStates outputName m).
  split; [by rewrite onMonitorLoaded_saved, lookup_fmap, Hw|].
  split; [by rewrite (loadedStates_lookup _ _ _ _ He), decide_True|].
  split; [|split].
  - intros k e' Hk Hle. rewrite (loadedStates_lookup _ _ _ _ He).
    case_decide; [done|]. rewrite Hk. by rewrite decide_True.
  - intros k e' Hne Hk Hlt. rewrite (loadedStates_lookup _ _ _ _ He).
    rewrite decide_False by done. rewrite Hk. rewrite decide_False by lia. done.
  - by rewrite onMonitorLoaded_restoresOf, Hw, He.
Qed.

Example example_load_A :
  _onMonitorLoaded example_host "A" rect_right example_two_saves
  = (mkExtension {[ 7%nat := ∅ ]} ∅ (mkSettings true true),
     [Restore 7 (WindowState.mk 1930 20 []) rect_right (Some ())]).
Proof. reflexivity. Qed.

(** Loading "B" instead removes only the state of "B": the one of "A" is
    older and stays. *)
Example example_load_B :
  _onMonitorLoaded example_host "B" rect_right example_two_saves
  = (mkExtension {[ 7%nat := {[ "A" := example_state_A ]} ]} ∅
       (mkSettings true true),
     [Restore 7 (WindowState.mk 1950 40 []) rect_right (Some ())]).
Proof. reflexivity. Qed.

Lemma C3_conflict_resolution_witness :
  _windowsSavedStates example_two_saves !! 7%nat
  = Some {[ "A" := example_state_A; "B" := example_state_B ]}
  ∧ ∃ m' : gmap Output SavedState,
      _windowsSavedStates
        (_onMonitorLoaded example_host "A" rect_right example_two_saves).1
        !! 7%nat = Some m'
      ∧ m' !! "A" = None
      ∧ m' !! "B" = None
      ∧ restoresOf 7
          (_onMonitorLoaded example_host "A" rect_right example_two_saves).2
        = [(WindowState.mk 1930 20 [], rect_right)].
Proof.
  split; [reflexivity|].
  destruct (C3_conflict_resolution example_host "A" rect_right
              example_two_saves 7%nat
              {[ "A" := example_state_A; "B" := example_state_B ]}
              example_state_A)
    as (m' & Hm' & HA & Hyounger & _ & Hcalls); [reflexivity|reflexivity|].
  exists m'. split; [exact Hm'|]. split; [exact HA|]. split; [|exact Hcalls].
  apply (Hyounger "B" example_state_B); [reflexivity|]. simpl. lia.
Defined.

(** C10 (one time per event).  [Date.now()] is read once per disconnect, so
    a state found after the handler was there before or was recorded by this
    event under its output with the event's time; and since loading removes
    the states whose time is at or after the matched one's, restoring any
    state of a window also discards the window's other states of the same
    time. *)
Theorem C10_one_time_per_event
    (h : Host) (outputName : Output) (monitorRect : MonitorRect.t)
    (now : Timestamp) (st : Extension) (w : Window)
    (m' : gmap Output SavedState) :
  _windowsSavedStates (_onOutputDisconnected h outputName monitorRect now st) !! w
  = Some m' →
  (∀ o e, m' !! o = Some e →
     (∃ m, _windowsSavedStates st !! w = Some m ∧ m !! o = Some e)
     ∨ (o = outputName ∧ time e = now))
  ∧ (∀ h' o1 rect' e1, m' !! o1 = Some e1 →
       ∃ m'',
         _windowsSavedStates
           (_onMonitorLoaded h' o1 rect'
              (_onOutputDisconnected h outputName monitorRect now st)).1 !! w
         = Some m''
         ∧ ∀ o2 e2, m' !! o2 = Some e2 → time e2 = time e1 → m'' !! o2 = None).
Proof.
  intros Hm'. split.
  - intros o e He. unfold _onOutputDisconnected in Hm'.
    destruct (loop_origin _ _ _ _ _ _ _ _ _ _ Hm' He) as [(m & Hm & Hme)|?];
      [left|by right].
    exists m. by rewrite saved_with_disc in Hm.
  - intros h' o1 rect' e1 He1. exists (loadedStates o1 m').
    split; [by rewrite onMonitorLoaded_saved, lookup_fmap, Hm'|].
    intros o2 e2 He2 Htime. rewrite (loadedStates_lookup _ _ _ _ He1).
    case_decide; [done|]. rewrite He2. rewrite decide_True by lia. done.
Qed.

(** C10 at an example: "A" and "B" disconnect within the same millisecond,
    each with window 7 inside its rectangle; loading "A" discards the state
    saved for "B" as well. *)
Lemma C10_one_time_per_event_witness :
  _windowsSavedStates example_same_time !! 7%nat
  = Some {[ "A" := example_entry; "B" := example_entry ]}
  ∧ ∃ m'' : gmap Output SavedState,
      _windowsSavedStates
        (_onMonitorLoaded example_host "A" rect_right example_same_time).1
        !! 7%nat = Some m''
      ∧ m'' !! "B" = None.
Proof.
  split; [reflexivity|].
  destruct (C10_one_time_per_event example_host "B" rect_left 1000
              (_onOutputDisconnected example_host "A" rect_left 1000
                 (enable (mkSettings true true)))
              7%nat {[ "A" := example_entry; "B" := example_entry ]})
    as [_ Hload]; [reflexivity|].
  destruct (Hload example_host "A" rect_right example_entry)
    as (m'' & Hm'' & Hsame); [reflexivity|].
  exists m''. split; [exact Hm''|].
  apply (Hsame "B" example_entry); reflexivity.
Defined.

(** *** Runs *)

(** A property of states kept by every permitted event, each of which makes
    only quiet calls, is kept by a run of permitted events, which makes only
    quiet calls. *)
Lemma run_preserves (I : Extension → Prop) (permitted : Event → Prop)
    (quiet : list HostCall → Prop) :
  quiet [] →
  (∀ cs1 cs2, quiet cs1 → quiet cs2 → quiet (cs1 ++ cs2)) →
  (∀ h ev st, I st → permitted ev →
     I (step h ev st).1 ∧ quiet (step h ev st).2) →
  ∀ trace st, I st → Forall permitted (events trace) →
    I (run trace st).1 ∧ quiet (run trace st).2.
Proof.
  intros Hnil Happ Hstep trace st Hst. unfold run.
  assert (quiet (st, @nil HostCall).2) as Hq by done.
  change st with (st, @nil HostCall).1 in Hst.
  revert Hst Hq. generalize (st, @nil HostCall).
  induction trace as [|[h ev] trace IH]; intros acc Hacc Hq Hall; [done|].
  apply Forall_cons in Hall as [Hev Hall]. cbn [foldl].
  destruct (Hstep h ev acc.1 Hacc Hev) as [Hst' Hq'].
  apply IH; [done| |done]. simpl. by apply Happ.
Qed.

(** *** C1: the invariant of the data model *)

Lemma enable_nonEmpty stored : savedStatesNonEmpty (enable stored).
Proof. apply map_Forall_empty. Qed.

(** C1, as stated, fails: after the disconnect the invariant holds; the load
    removes the only state of window 7 and keeps the window's key. *)
Lemma C1_counterexample :
  savedStatesNonEmpty
    (run [(example_host, OutputDisconnected "HDMI-1" rect_left 1000)]
       (enable (mkSettings true true))).1
  ∧ reachable (run example_disconnect_load (enable (mkSettings true true))).1
  ∧ _windowsSavedStates
      (run example_disconnect_load (enable (mkSettings true true))).1 !! 7%nat
    = Some ∅
  ∧ ¬ savedStatesNonEmpty
        (run example_disconnect_load (enable (mkSettings true true))).1.
Proof.
  split; [apply (bool_decide_unpack _); vm_compute; reflexivity|].
  split; [eexists _, _; reflexivity|].
  split; [vm_compute; reflexivity|].
  intros Hinv. unfold savedStatesNonEmpty in Hinv.
  apply (map_Forall_lookup_1 _ _ 7%nat ∅) in Hinv;
    [done | vm_compute; reflexivity].
Qed.

(** C1, amended.  The invariant holds when the extension is enabled and
    every operation but [_onMonitorLoaded] keeps it, so that it holds after
    every run without a monitor-loaded event.  [_onMonitorLoaded], from any
    state, keeps every window's key, and maps a window to an empty inner map
    only if the window was mapped to one before or had a state for the loaded
    output. *)
Theorem C1_invariant_but_for_load
    (h : Host) (stored : Settings) (ev : Event) (st : Extension) :
  savedStatesNonEmpty (enable stored)
  ∧ (∀ trace,
       Forall (λ ev', ∀ o r, ev' ≠ MonitorLoaded o r) (events trace) →
       savedStatesNonEmpty (run trace (enable stored)).1)
  ∧ match ev with
    | MonitorLoaded outputName monitorRect =>
        dom (_windowsSavedStates (step h ev st).1)
        = dom (_windowsSavedStates st)
        ∧ ∀ w, _windowsSavedStates (step h ev st).1 !! w = Some ∅ →
               ∃ m, _windowsSavedStates st !! w = Some m
                    ∧ (m = ∅ ∨ is_Some (m !! outputName))
    | _ => savedStatesNonEmpty st → savedStatesNonEmpty (step h ev st).1
    end.
Proof.
  assert (∀ h' ev' st',
            (∀ o r, ev' ≠ MonitorLoaded o r) →
            savedStatesNonEmpty st' → savedStatesNonEmpty (step h' ev' st').1)
    as Hkept.
  { intros h' ev' st' Hev Hinv.
    destruct ev' as [o r t|o r|o r|o r|w|v|v]; simpl.
    - unfold _onOutputDisconnected. by apply loop_nonEmpty.
    - done.
    - unfold _onMonitorUnloaded.
      by destruct (_monitorDisconnectedWindows st' !! o).
    - by destruct (Hev o r).
    - unfold savedStatesNonEmpty, _onWindowRemoved; simpl.
      by apply map_Forall_delete.
    - unfold _onRememberStateChange; simpl. destruct v; simpl; [done|].
      apply map_Forall_empty.
    - done. }
  split; [apply enable_nonEmpty|]. split.
  - intros trace Hall.
    destruct (run_preserves savedStatesNonEmpty
                (λ ev', ∀ o r, ev' ≠ MonitorLoaded o r) (λ _, True))
      with (trace := trace) (st := enable stored) as [Hinv _];
      [done|done| |apply enable_nonEmpty|done|done].
    intros h' ev' st' Hst' Hev'. split; [|done]. by apply Hkept.
  - destruct ev as [o r t|o r|o r|o r|w|v|v];
      try (apply Hkept; intros ? ?; discriminate).
    simpl. rewrite onMonitorLoaded_saved. split; [apply dom_fmap_L|].
    intros w. rewrite lookup_fmap.
    destruct (_windowsSavedStates st !! w) as [m|] eqn:Hw; simpl; [|done].
    intros [= Hempty]. exists m. split; [done|].
    destruct (m !! o) as [e|] eqn:Ho; [right; by eexists|].
    left. by rewrite loadedStates_no_match in Hempty.
Qed.

(** C1 at examples: a disconnect keeps the invariant; a load keeps the keys;
    and a second load, of an output for which window 7 has no state, finds the
    window on the empty map the first load left and leaves it there. *)
Lemma C1_invariant_but_for_load_witness :
  savedStatesNonEmpty example_pending
  ∧ savedStatesNonEmpty
      (step example_host (OutputDisconnected "DP-2" rect_right 2000)
         example_pending).1
  ∧ dom (_windowsSavedStates
           (step example_host (MonitorLoaded "HDMI-1" rect_right)
              example_pending).1)
    = dom (_windowsSavedStates example_pending)
  ∧ _windowsSavedStates
      (step example_host (MonitorLoaded "DP-2" rect_right)
         (run example_disconnect_load (enable (mkSettings true true))).1).1
      !! 7%nat = Some ∅.
Proof.
  assert (savedStatesNonEmpty example_pending) as Hinv
    by (apply (bool_decide_unpack _); vm_compute; reflexivity).
  split; [exact Hinv|]. split; [|split].
  - exact (proj2 (proj2 (C1_invariant_but_for_load example_host
                           (mkSettings true true)
                           (OutputDisconnected "DP-2" rect_right 2000)
                           example_pending)) Hinv).
  - exact (proj1 (proj2 (proj2 (C1_invariant_but_for_load example_host
                                  (mkSettings true true)
                                  (MonitorLoaded "HDMI-1" rect_right)
                                  example_pending)))).
  - vm_compute. reflexivity.
Defined.

(** *** C2: a codec call that fails *)

Lemma Extension_eq (st1 st2 : Extension) :
  _windowsSavedStates st1 = _windowsSavedStates st2 →
  _monitorDisconnectedWindows st1 = _monitorDisconnectedWindows st2 →
  _settings st1 = _settings st2 →
  st1 = st2.
Proof. destruct st1, st2; simpl. by intros -> -> ->. Qed.

Section capture_failure.
Context (h h0 : Host) (outputName : Output) (monitorRect : MonitorRect.t)
        (now : Timestamp) (w : Window).
Hypothesis Hhosts : sameExceptSave w h h0.

Lemma captured_same st1 st2 w' :
  _settings st1 = _settings st2 → w' ≠ w →
  captured h monitorRect st1 w' = captured h0 monitorRect st2 w'.
Proof.
  destruct Hhosts as (_ & Hinside & Hmove & Hsave).
  intros Hs Hne. unfold captured.
  by rewrite Hinside, Hmove, Hs, (Hsave w' Hne).
Qed.

Lemma body_sameExceptSaved st1 st2 w0 :
  sameExceptSaved w st1 st2 →
  sameExceptSaved w
    (disconnectedWindow h outputName monitorRect now st1 w0)
    (disconnectedWindow h0 outputName monitorRect now st2 w0).
Proof.
  intros (Hs & Hd & Hm).
  pose proof Hhosts as (_ & Hinside & _ & _).
  split; [by rewrite !body_settings|].
  split; [by rewrite !body_disc, Hinside, Hd|].
  intros w' Hne. destruct (decide (w0 = w')) as [->|Hne0].
  - rewrite !body_saved_eq, (captured_same st1 st2 w' Hs Hne).
    rewrite (Hm w' Hne). done.
  - rewrite !body_saved_ne by done. by apply Hm.
Qed.

Lemma loop_sameExceptSaved l st1 st2 :
  sameExceptSaved w st1 st2 →
  sameExceptSaved w
    (foldl (disconnectedWindow h outputName monitorRect now) st1 l)
    (foldl (disconnectedWindow h0 outputName monitorRect now) st2 l).
Proof.
  revert st1 st2. induction l as [|w0 l IH]; intros st1 st2 Hsame; [done|].
  cbn [foldl]. by apply IH, body_sameExceptSaved.
Qed.

Lemma onOutputDisconnected_sameExceptSaved st :
  sameExceptSaved w
    (_onOutputDisconnected h outputName monitorRect now st)
    (_onOutputDisconnected h0 outputName monitorRect now st).
Proof.
  unfold _onOutputDisconnected.
  destruct Hhosts as (<- & _). by apply loop_sameExceptSaved.
Qed.
End capture_failure.

(** A window whose capture throws keeps the saved states it had. *)
Lemma loop_capture_failed h outputName monitorRect now w l st :
  save (windowSaver h) w = Threw →
  _windowsSavedStates
    (foldl (disconnectedWindow h outputName monitorRect now) st l) !! w
  = _windowsSavedStates st !! w.
Proof.
  intros Hthrew. revert st. induction l as [|w0 l IH]; intros st; [done|].
  cbn [foldl]. rewrite IH. destruct (decide (w0 = w)) as [->|Hne].
  - rewrite body_saved_eq. unfold captured. rewrite Hthrew; simpl.
    by destruct (_ && _).
  - by rewrite body_saved_ne.
Qed.

(** C2 (a codec call that fails).  A capture that throws records nothing:
    the window's saved states are those it had, and the stranded sets and the
    saved states of every other window are what they are on a desktop that
    differs only in this capture, so the loop goes on as if the capture had
    succeeded.  A restore that throws changes nothing: the loop body leaves
    the state it had built before the call, with the matched state and the
    younger ones removed (lines 134-141), whatever the call does; the state
    after the handler and the restore calls made for every window are the
    same on every desktop, so the loop goes on as well. *)
Theorem C2_failed_codec_call
    (h : Host) (outputName : Output) (monitorRect : MonitorRect.t)
    (now : Timestamp) (st : Extension) (w : Window) :
  save (windowSaver h) w = Threw →
  (∀ ws r, restore (windowSaver h) w ws r = Threw) →
  _windowsSavedStates (_onOutputDisconnected h outputName monitorRect now st) !! w
  = _windowsSavedStates st !! w
  ∧ (∀ h0, sameExceptSave w h h0 →
       _monitorDisconnectedWindows
         (_onOutputDisconnected h outputName monitorRect now st)
       = _monitorDisconnectedWindows
           (_onOutputDisconnected h0 outputName monitorRect now st)
       ∧ ∀ w', w' ≠ w →
           _windowsSavedStates
             (_onOutputDisconnected h outputName monitorRect now st) !! w'
           = _windowsSavedStates
               (_onOutputDisconnected h0 outputName monitorRect now st) !! w')
  ∧ (∀ acc savedStates state,
       savedStates !! outputName = Some state →
       (loadedWindow h outputName monitorRect acc (w, savedStates)).1
       = with_windowsSavedStates
           (<[w := forgetYounger (time state) (delete outputName savedStates)]>
              (_windowsSavedStates acc.1))
           acc.1
       ∧ (loadedWindow h outputName monitorRect acc (w, savedStates)).2
         = acc.2 ++ [Restore w (toAbsolute monitorRect (windowState state))
                       monitorRect None])
  ∧ (∀ h0,
       (_onMonitorLoaded h outputName monitorRect st).1
       = (_onMonitorLoaded h0 outputName monitorRect st).1
       ∧ ∀ w', restoresOf w' (_onMonitorLoaded h outputName monitorRect st).2
               = restoresOf w'
                   (_onMonitorLoaded h0 outputName monitorRect st).2).
Proof.
  intros Hsave Hrestore. split; [|split; [|split]].
  - unfold _onOutputDisconnected. by rewrite loop_capture_failed.
  - intros h0 Hhosts.
    destruct (onOutputDisconnected_sameExceptSaved h h0 outputName monitorRect
                now w Hhosts st) as (_ & Hd & Hm).
    by split.
  - intros acc savedStates state Hstate. unfold loadedWindow.
    rewrite Hstate. simpl. by rewrite Hrestore.
  - intros h0. split.
    + apply Extension_eq.
      * by rewrite !onMonitorLoaded_saved.
      * by rewrite !onMonitorLoaded_disc.
      * by rewrite !onMonitorLoaded_settings.
    + intros w'. by rewrite !onMonitorLoaded_restoresOf.
Qed.

(** C2 at the example, on the desktop where every codec call throws: the
    disconnect of "DP-2" records nothing for window 8, which sits on it, and
    still strands it; the load of "HDMI-1" calls the restore of window 7,
    which throws, and ends in the state it ends in where the restore
    succeeds. *)
Lemma C2_failed_codec_call_witness :
  save (windowSaver example_failing_host) 8%nat = Threw
  ∧ _windowsSavedStates
      (_onOutputDisconnected example_failing_host "DP-2" rect_right 2000
         example_pending) !! 8%nat
    = _windowsSavedStates example_pending !! 8%nat
  ∧ _monitorDisconnectedWindows
      (_onOutputDisconnected example_failing_host "DP-2" rect_right 2000
         example_pending) !! "DP-2"
    = Some {[ 8%nat ]}
  ∧ (_onMonitorLoaded example_failing_host "HDMI-1" rect_right
       example_pending).2
    = [Restore 7
         (WindowState.mk 2020 50 [("width"%string, 800); ("height"%string, 600)])
         rect_right None]
  ∧ (_onMonitorLoaded example_failing_host "HDMI-1" rect_right
       example_pending).1
    = (_onMonitorLoaded example_host "HDMI-1" rect_right example_pending).1.
Proof.
  destruct (C2_failed_codec_call example_failing_host "DP-2" rect_right 2000
              example_pending 8%nat)
    as (Hkept & _ & _ & _); [reflexivity | reflexivity |].
  destruct (C2_failed_codec_call example_failing_host "HDMI-1" rect_right 2000
              example_pending 7%nat)
    as (_ & _ & _ & Hload); [reflexivity | reflexivity |].
  split; [reflexivity|]. split; [exact Hkept|].
  split; [vm_compute; reflexivity|].
  split; [vm_compute; reflexivity|].
  exact (proj1 (Hload example_host)).
Defined.

(** *** The remaining claims at examples *)

(** C6 at the example: remembering is off and every capture would throw;
    "HDMI-1" had window 8 stranded from an earlier disconnect; after the
    disconnect at [rect_left] its stranded set holds window 7 and not
    window 8. *)
Lemma C6_stranded_set_witness :
  ∃ stranded : gset Window,
    _monitorDisconnectedWindows
      (_onOutputDisconnected example_failing_host "HDMI-1" rect_left 1000
         (mkExtension ∅ {[ "HDMI-1" := {[ 8%nat ]} ]} (mkSettings false true)))
      !! "HDMI-1"
    = Some stranded
    ∧ 7%nat ∈ stranded ∧ 8%nat ∉ stranded.
Proof.
  destruct (C6_stranded_set example_failing_host "HDMI-1" rect_left 1000
              (mkExtension ∅ {[ "HDMI-1" := {[ 8%nat ]} ]}
                 (mkSettings false true)))
    as (stranded & Hs & Hmem).
  exists stranded. split; [exact Hs|]. split.
  - apply Hmem. split; [constructor | reflexivity].
  - intros H8. apply Hmem in H8 as [_ H8]. vm_compute in H8. discriminate.
Defined.

(** Without the connect in between, the unload minimizes the stranded
    window. *)
Example example_unload_minimizes :
  minimized
    (run [(example_host, OutputDisconnected "HDMI-1" rect_left 1000);
          (example_host, MonitorUnloaded "HDMI-1" rect_left)]
       (enable (mkSettings true true))).2
  = [7%nat].
Proof. vm_compute. reflexivity. Qed.

Lemma C7_no_minimize_after_connect_witness :
  minimized
    (run [(example_host, OutputDisconnected "HDMI-1" rect_left 1000);
          (example_host, OutputConnected "HDMI-1" rect_left);
          (example_host, MonitorUnloaded "HDMI-1" rect_left)]
       (enable (mkSettings true true))).2
  = [].
Proof.
  exact (proj2 (proj2 (C7_no_minimize_after_connect example_host example_host
                         example_host "HDMI-1" rect_left rect_left rect_left
                         1000 (enable (mkSettings true true))))).
Defined.

Lemma C8_cleanup_on_removal_witness :
  _windowsSavedStates (_onWindowRemoved 7 example_twice_stranded) !! 7%nat = None
  ∧ _windowsSavedStates (_onWindowRemoved 7 example_twice_stranded) !! 8%nat
    = Some {[ "A" := example_state_A ]}
  ∧ _monitorDisconnectedWindows (_onWindowRemoved 7 example_twice_stranded)
    = {[ "A" := {[ 8%nat ]}; "B" := ∅ ]}.
Proof.
  destruct (C8_cleanup_on_removal 7 example_twice_stranded)
    as (Hgone & _ & Hothers & _).
  split; [exact Hgone|]. split.
  - rewrite (Hothers 8%nat) by discriminate. vm_compute. reflexivity.
  - vm_compute. reflexivity.
Defined.

Lemma C9_clear_on_toggle_witness :
  _windowsSavedStates
    (step example_host (RememberStateChanged false) example_pending).1 = ∅
  ∧ _monitorDisconnectedWindows
      (step example_host (RememberStateChanged false) example_pending).1
    = {[ "HDMI-1" := {[ 7%nat ]} ]}
  ∧ _windowsSavedStates
      (step example_host (RememberStateChanged true) example_pending).1
    = {[ 7%nat := {[ "HDMI-1" := example_entry ]} ]}.
Proof.
  destruct (C9_clear_on_toggle example_host example_pending)
    as (Hcleared & Hstranded & Hkept & _).
  split; [exact Hcleared|]. split.
  - rewrite Hstranded. vm_compute. reflexivity.
  - rewrite Hkept. vm_compute. reflexivity.
Defined.

(** ** Further properties of the handlers *)

(** *** Connect and unload *)

Lemma onMonitorUnloaded_saved h o st :
  _windowsSavedStates (_onMonitorUnloaded h o st).1 = _windowsSavedStates st.
Proof.
  unfold _onMonitorUnloaded. by destruct (_monitorDisconnectedWindows st !! o).
Qed.

Lemma onMonitorUnloaded_settings h o st :
  _settings (_onMonitorUnloaded h o st).1 = _settings st.
Proof.
  unfold _onMonitorUnloaded. by destruct (_monitorDisconnectedWindows st !! o).
Qed.

Lemma onMonitorUnloaded_disc h o st :
  _monitorDisconnectedWindows (_onMonitorUnloaded h o st).1
  = delete o (_monitorDisconnectedWindows st).
Proof.
  unfold _onMonitorUnloaded.
  destruct (_monitorDisconnectedWindows st !! o) eqn:Ho; simpl; [done|].
  by rewrite delete_id.
Qed.

(** The windows minimized by the loop of lines 121-125. *)
Lemma minimized_loop h st l :
  minimized (l ≫= minimizeWindow h st)
  = if minimize (_settings st)
    then filter (λ w, can_minimize h w = true) l
    else [].
Proof.
  unfold minimized. induction l as [|w l IH].
  - by destruct (minimize _).
  - rewrite bind_cons, bind_app, IH. unfold minimizeWindow.
    destruct (minimize (_settings st)); simpl; [|done].
    rewrite filter_cons. by destruct (can_minimize h w).
Qed.

Lemma restoresOf_minimize_loop h st l w :
  restoresOf w (l ≫= minimizeWindow h st) = [].
Proof.
  unfold restoresOf. induction l as [|w0 l IH]; [done|].
  rewrite bind_cons, bind_app, IH, app_nil_r. unfold minimizeWindow.
  by destruct (_ && _).
Qed.

(** X1.  A second connect right after a first changes nothing, whatever
    the state; and a connect for an output that has no stranded set changes
    nothing at all. *)
Theorem connect_without_stranded_set (outputName : Output) (st : Extension) :
  _onOutputConnected outputName (_onOutputConnected outputName st)
  = _onOutputConnected outputName st
  ∧ (_monitorDisconnectedWindows st !! outputName = None →
     _onOutputConnected outputName st = st).
Proof.
  unfold _onOutputConnected. split.
  - rewrite disc_with_disc. simpl. by rewrite delete_delete_eq.
  - intros Hnone. rewrite (delete_id _ _ Hnone). by destruct st.
Qed.

Lemma connect_without_stranded_set_witness :
  _monitorDisconnectedWindows example_pending !! "DP-2" = None
  ∧ _onOutputConnected "DP-2" example_pending = example_pending
  ∧ _onOutputConnected "HDMI-1" (_onOutputConnected "HDMI-1" example_pending)
    = _onOutputConnected "HDMI-1" example_pending.
Proof.
  split; [reflexivity|]. split.
  - exact (proj2 (connect_without_stranded_set "DP-2" example_pending) eq_refl).
  - exact (proj1 (connect_without_stranded_set "HDMI-1" example_pending)).
Defined.

(** X2.  An unload uses up the stranded set: a second unload of the output,
    on any desktop, makes no call and changes nothing. *)
Theorem unload_twice (h h' : Host) (outputName : Output) (st : Extension) :
  _onMonitorUnloaded h' outputName (_onMonitorUnloaded h outputName st).1
  = ((_onMonitorUnloaded h outputName st).1, []).
Proof.
  unfold _onMonitorUnloaded at 1.
  by rewrite onMonitorUnloaded_disc, lookup_delete_eq.
Qed.

(** X3.  An unload of an output that has a stranded set removes the set,
    leaves the saved states, restores nothing, and minimizes each stranded
    window that can be minimized exactly once when [minimize] is on, and
    none when it is off. *)
Theorem unload_minimizes_stranded
    (h : Host) (outputName : Output) (st : Extension) (stranded : gset Window) :
  _monitorDisconnectedWindows st !! outputName = Some stranded →
  _monitorDisconnectedWindows (_onMonitorUnloaded h outputName st).1
  = delete outputName (_monitorDisconnectedWindows st)
  ∧ _windowsSavedStates (_onMonitorUnloaded h outputName st).1
    = _windowsSavedStates st
  ∧ NoDup (minimized (_onMonitorUnloaded h outputName st).2)
  ∧ ∀ w, restoresOf w (_onMonitorUnloaded h outputName st).2 = []
         ∧ (w ∈ minimized (_onMonitorUnloaded h outputName st).2
            ↔ minimize (_settings st) = true ∧ w ∈ stranded
              ∧ can_minimize h w = true).
Proof.
  intros Hs.
  split; [apply onMonitorUnloaded_disc|]. split; [apply onMonitorUnloaded_saved|].
  unfold _onMonitorUnloaded. rewrite Hs. simpl. rewrite minimized_loop.
  split.
  - destruct (minimize _); [|constructor].
    apply NoDup_filter, NoDup_elements.
  - intros w. split; [apply restoresOf_minimize_loop|].
    destruct (minimize _).
    + rewrite list_elem_of_filter, elem_of_elements. tauto.
    + rewrite elem_of_nil. split; [done|]. by intros [? _].
Qed.

Lemma unload_minimizes_stranded_witness :
  _monitorDisconnectedWindows example_pending !! "HDMI-1" = Some {[ 7%nat ]}
  ∧ 7%nat ∈ minimized (_onMonitorUnloaded example_host "HDMI-1" example_pending).2
  ∧ _windowsSavedStates (_onMonitorUnloaded example_host "HDMI-1" example_pending).1
    = _windowsSavedStates example_pending.
Proof.
  destruct (unload_minimizes_stranded example_host "HDMI-1" example_pending
              {[ 7%nat ]}) as (_ & Hsaved & _ & Hcalls); [reflexivity|].
  split; [reflexivity|]. split; [|exact Hsaved].
  apply (proj2 (Hcalls 7%nat)).
  split; [reflexivity|]. split; [|reflexivity].
  by apply elem_of_singleton.
Defined.

(** *** Load *)

Lemma loadedStates_lookup_output o m : loadedStates o m !! o = None.
Proof.
  destruct (m !! o) as [e|] eqn:He.
  - by rewrite (loadedStates_lookup _ _ _ _ He), decide_True.
  - by rewrite loadedStates_no_match.
Qed.

Lemma loadedStates_idemp o m : loadedStates o (loadedStates o m) = loadedStates o m.
Proof. apply loadedStates_no_match, loadedStates_lookup_output. Qed.

Lemma loadedStates_subseteq o m k e :
  loadedStates o m !! k = Some e → k ≠ o ∧ m !! k = Some e.
Proof.
  destruct (m !! o) as [e0|] eqn:He0.
  - rewrite (loadedStates_lookup _ _ _ _ He0).
    case_decide; [done|]. destruct (m !! k) as [e'|]; [|done].
    case_decide; [done|]. by intros [= <-].
  - rewrite loadedStates_no_match by done. intros Hk. split; [|done].
    intros ->. by rewrite He0 in Hk.
Qed.

(** No entry has a state for the output: the loop makes no call. *)
Lemma restoreCall_none h o r (l : list (Window * gmap Output SavedState)) :
  (∀ entry, entry ∈ l → entry.2 !! o = None) →
  l ≫= restoreCall h o r = [].
Proof.
  induction l as [|entry l IH]; intros Hl; [done|].
  rewrite bind_cons, IH.
  - unfold restoreCall. rewrite (Hl entry) by constructor. done.
  - intros entry' Hin. apply Hl. by constructor.
Qed.

(** X4.  Unplug and replug.  A window captured when its output disconnects,
    with no state pending for that output, is restored exactly once when the
    monitor loads again after having been unloaded, with the new rectangle
    and at [((x - R.x) + R'.x, (y - R.y) + R'.y)] as binary64 arithmetic
    computes it; the unload in between minimizes it exactly when [minimize]
    is on and the window can be minimized. *)
Theorem unplug_replug_restores
    (h h1 h2 : Host) (outputName : Output) (R R' : MonitorRect.t)
    (now : Timestamp) (st : Extension) (w : Window) (ws : WindowState.t) :
  rememberState (_settings st) = true →
  w ∈ list_windows h →
  isInside (windowSaver h) w R = true →
  allowsMove (windowSaver h) w = true →
  save (windowSaver h) w = Returned ws →
  default ∅ (_windowsSavedStates st !! w) !! outputName = None →
  restoresOf w
    (_onMonitorLoaded h2 outputName R'
       (_onMonitorUnloaded h1 outputName
          (_onOutputDisconnected h outputName R now st)).1).2
  = [(WindowState.mk
        (WindowState.x ws - MonitorRect.x R + MonitorRect.x R')
        (WindowState.y ws - MonitorRect.y R + MonitorRect.y R')
        (WindowState.payload ws), R')]
  ∧ (w ∈ minimized
           (_onMonitorUnloaded h1 outputName
              (_onOutputDisconnected h outputName R now st)).2
     ↔ minimize (_settings st) = true ∧ can_minimize h1 w = true).
Proof.
  intros Hremember Hin Hinside Hmove Hsave Hnone. split.
  - destruct (onOutputDisconnected_fresh h outputName R now st w
                (toRelative R ws)) as (m' & Hm' & He); [done| |done|].
    { unfold captured. by rewrite Hinside, Hremember, Hmove, Hsave. }
    by rewrite onMonitorLoaded_restoresOf, onMonitorUnloaded_saved, Hm', He.
  - unfold _onMonitorUnloaded. rewrite onOutputDisconnected_disc_eq. simpl.
    rewrite minimized_loop, onOutputDisconnected_settings.
    destruct (minimize (_settings st)).
    + rewrite list_elem_of_filter, elem_of_elements, elem_of_list_to_set.
      rewrite list_elem_of_filter. tauto.
    + rewrite elem_of_nil. split; [done|]. by intros [? _].
Qed.

Lemma unplug_replug_restores_witness :
  restoresOf 7
    (_onMonitorLoaded example_host "HDMI-1" rect_right
       (_onMonitorUnloaded example_host "HDMI-1"
          (_onOutputDisconnected example_host "HDMI-1" rect_left 1000
             (enable (mkSettings true true)))).1).2
  = [(WindowState.mk 2020 50 [("width"%string, 800); ("height"%string, 600)],
      rect_right)]
  ∧ 7%nat ∈ minimized
              (_onMonitorUnloaded example_host "HDMI-1"
                 (_onOutputDisconnected example_host "HDMI-1" rect_left 1000
                    (enable (mkSettings true true)))).2.
Proof.
  destruct (unplug_replug_restores example_host example_host example_host
              "HDMI-1" rect_left rect_right 1000 (enable (mkSettings true true))
              7%nat (example_state 7)) as (Hrestored & Hminimized);
    [reflexivity | constructor | reflexivity | reflexivity
    | reflexivity | reflexivity | ].
  split; [exact Hrestored|]. apply (proj2 Hminimized). by split.
Defined.

(** X5.  A saved state is restored at most once: a second load of the
    output, with any rectangle and on any desktop, makes no call and changes
    nothing. *)
Theorem load_twice
    (h h' : Host) (outputName : Output) (r r' : MonitorRect.t)
    (st : Extension) :
  _onMonitorLoaded h' outputName r' (_onMonitorLoaded h outputName r st).1
  = ((_onMonitorLoaded h outputName r st).1, []).
Proof.
  apply injective_projections; simpl.
  - apply Extension_eq.
    + rewrite !onMonitorLoaded_saved, <-map_fmap_compose.
      apply map_fmap_ext. intros w m _. apply loadedStates_idemp.
    + by rewrite onMonitorLoaded_disc.
    + by rewrite onMonitorLoaded_settings.
  - rewrite onMonitorLoaded_calls. apply restoreCall_none.
    intros [w m] Hin. apply elem_of_map_to_list in Hin. simpl.
    rewrite onMonitorLoaded_saved, lookup_fmap in Hin.
    destruct (_windowsSavedStates st !! w) as [m0|]; simpl in Hin; [|done].
    injection Hin as <-. apply loadedStates_lookup_output.
Qed.

(** X6.  A load leaves alone every window that has no state for the loaded
    output: its saved states stay and no restore is called for it. *)
Theorem load_untouched_window
    (h : Host) (outputName : Output) (r : MonitorRect.t) (st : Extension)
    (w : Window) :
  default ∅ (_windowsSavedStates st !! w) !! outputName = None →
  _windowsSavedStates (_onMonitorLoaded h outputName r st).1 !! w
  = _windowsSavedStates st !! w
  ∧ restoresOf w (_onMonitorLoaded h outputName r st).2 = [].
Proof.
  intros Hnone.
  rewrite onMonitorLoaded_saved, lookup_fmap, onMonitorLoaded_restoresOf.
  destruct (_windowsSavedStates st !! w) as [m|]; simpl in *; [|done].
  rewrite Hnone. by rewrite loadedStates_no_match.
Qed.

Lemma load_untouched_window_witness :
  _windowsSavedStates
    (_onMonitorLoaded example_host "B" rect_right example_twice_stranded).1
    !! 8%nat
  = Some {[ "A" := example_state_A ]}
  ∧ restoresOf 8
      (_onMonitorLoaded example_host "B" rect_right example_twice_stranded).2
    = [].
Proof.
  destruct (load_untouched_window example_host "B" rect_right
              example_twice_stranded 8%nat) as (Hsaved & Hcalls);
    [vm_compute; reflexivity|].
  split; [|exact Hcalls]. rewrite Hsaved. vm_compute. reflexivity.
Defined.

(** X7.  A load, from any state, minimizes nothing and touches neither the
    stranded sets nor the settings; and it only removes saved states: every
    state found after it was there before and is a state of another
    output. *)
Theorem load_only_removes
    (h : Host) (outputName : Output) (r : MonitorRect.t) (st : Extension) :
  minimized (_onMonitorLoaded h outputName r st).2 = []
  ∧ _monitorDisconnectedWindows (_onMonitorLoaded h outputName r st).1
    = _monitorDisconnectedWindows st
  ∧ _settings (_onMonitorLoaded h outputName r st).1 = _settings st
  ∧ ∀ w m' k e,
      _windowsSavedStates (_onMonitorLoaded h outputName r st).1 !! w = Some m' →
      m' !! k = Some e →
      k ≠ outputName
      ∧ ∃ m, _windowsSavedStates st !! w = Some m ∧ m !! k = Some e.
Proof.
  split; [|split; [apply onMonitorLoaded_disc|
                   split; [apply onMonitorLoaded_settings|]]].
  - rewrite onMonitorLoaded_calls. unfold minimized.
    induction (map_to_list (_windowsSavedStates st)) as [|entry l IH]; [done|].
    rewrite bind_cons, bind_app, IH, app_nil_r. unfold restoreCall.
    by destruct (entry.2 !! outputName).
  - intros w m' k e Hw Hk. rewrite onMonitorLoaded_saved, lookup_fmap in Hw.
    destruct (_windowsSavedStates st !! w) as [m|] eqn:Hm; simpl in Hw; [|done].
    injection Hw as <-. apply loadedStates_subseteq in Hk as [Hne Hk].
    split; [done|]. by exists m.
Qed.

Lemma load_only_removes_witness :
  _windowsSavedStates
    (_onMonitorLoaded example_host "B" rect_right example_two_saves).1 !! 7%nat
  = Some {[ "A" := example_state_A ]}
  ∧ (∃ m : gmap Output SavedState,
       _windowsSavedStates example_two_saves !! 7%nat = Some m
       ∧ m !! "A" = Some example_state_A)
  ∧ _monitorDisconnectedWindows
      (_onMonitorLoaded example_host "B" rect_right example_twice_stranded).1
    = _monitorDisconnectedWindows example_twice_stranded.
Proof.
  split; [vm_compute; reflexivity|]. split.
  - destruct (load_only_removes example_host "B" rect_right example_two_saves)
      as (_ & _ & _ & Hbefore).
    destruct (Hbefore 7%nat {[ "A" := example_state_A ]} "A" example_state_A)
      as [_ Hm]; [vm_compute; reflexivity | reflexivity |].
    exact Hm.
  - exact (proj1 (proj2 (load_only_removes example_host "B" rect_right
                           example_twice_stranded))).
Defined.

(** *** Disconnect *)

Section disconnect_more.
Context (h : Host) (outputName : Output) (monitorRect : MonitorRect.t)
        (now : Timestamp).

Local Abbreviation body := (disconnectedWindow h outputName monitorRect now).

(** A window whose state the loop body would not capture keeps its saved
    states through the loop, wherever it is in the list. *)
Lemma loop_not_captured l st w :
  (w ∈ l → captured h monitorRect st w = None) →
  _windowsSavedStates (foldl body st l) !! w = _windowsSavedStates st !! w.
Proof.
  revert st. induction l as [|w0 l IH]; intros st Hw; [done|].
  cbn [foldl]. rewrite IH.
  - destruct (decide (w0 = w)) as [->|Hne].
    + rewrite body_saved_eq, Hw; [done|constructor].
    + by rewrite body_saved_ne.
  - intros Hin. rewrite captured_body. apply Hw. by constructor.
Qed.

(** The loop never removes or replaces a state. *)
Lemma body_keeps st w0 w m o e :
  _windowsSavedStates st !! w = Some m → m !! o = Some e →
  ∃ m', _windowsSavedStates (body st w0) !! w = Some m' ∧ m' !! o = Some e.
Proof.
  intros Hw He. destruct (decide (w0 = w)) as [->|Hne].
  - rewrite body_saved_eq, Hw.
    destruct (captured h monitorRect st w) as [ws|]; [|by exists m].
    eexists. split; [done|]. unfold recorded. simpl.
    destruct (m !! outputName) eqn:Hout; [done|].
    rewrite lookup_insert_ne; [done|]. intros ->. by rewrite Hout in He.
  - exists m. by rewrite body_saved_ne.
Qed.

Lemma loop_keeps l st w m o e :
  _windowsSavedStates st !! w = Some m → m !! o = Some e →
  ∃ m', _windowsSavedStates (foldl body st l) !! w = Some m' ∧ m' !! o = Some e.
Proof.
  revert st m. induction l as [|w0 l IH]; intros st m Hw He; [by exists m|].
  cbn [foldl]. destruct (body_keeps st w0 w m o e Hw He) as (m1 & Hm1 & He1).
  by eapply IH.
Qed.
End disconnect_more.

(** X8.  A disconnect leaves a window's saved states as they are when the
    window is not listed, is not inside the rectangle, or cannot be moved,
    when [rememberState] is off, or when its capture throws. *)
Theorem disconnect_untouched_window
    (h : Host) (outputName : Output) (monitorRect : MonitorRect.t)
    (now : Timestamp) (st : Extension) (w : Window) :
  w ∉ list_windows h
  ∨ isInside (windowSaver h) w monitorRect = false
  ∨ rememberState (_settings st) = false
  ∨ allowsMove (windowSaver h) w = false
  ∨ save (windowSaver h) w = Threw →
  _windowsSavedStates (_onOutputDisconnected h outputName monitorRect now st) !! w
  = _windowsSavedStates st !! w.
Proof.
  intros Hcases. unfold _onOutputDisconnected. rewrite loop_not_captured; [done|].
  intros Hin. unfold captured; simpl.
  destruct Hcases as [Hout|[Hc|[Hc|[Hc|Hc]]]]; [done|rewrite Hc..].
  - done.
  - by rewrite andb_false_r.
  - by rewrite andb_false_r.
  - simpl. by destruct (_ && _).
Qed.

Lemma disconnect_untouched_window_witness :
  isInside (windowSaver example_host) 7%nat rect_right = false
  ∧ _windowsSavedStates
      (_onOutputDisconnected example_host "DP-2" rect_right 2000 example_pending)
      !! 7%nat
    = Some {[ "HDMI-1" := example_entry ]}.
Proof.
  split; [reflexivity|].
  rewrite (disconnect_untouched_window example_host "DP-2" rect_right 2000
             example_pending 7%nat);
    [vm_compute; reflexivity | right; left; reflexivity].
Defined.

(** X9.  A disconnect never removes or overwrites a pending state: every
    state a window has, for whatever output, it still has afterwards. *)
Theorem disconnect_keeps_pending_states
    (h : Host) (outputName : Output) (monitorRect : MonitorRect.t)
    (now : Timestamp) (st : Extension) (w : Window)
    (m : gmap Output SavedState) (o : Output) (e : SavedState) :
  _windowsSavedStates st !! w = Some m →
  m !! o = Some e →
  ∃ m', _windowsSavedStates
          (_onOutputDisconnected h outputName monitorRect now st) !! w = Some m'
        ∧ m' !! o = Some e.
Proof.
  intros Hw He. unfold _onOutputDisconnected. by eapply loop_keeps.
Qed.

(** "DP-2" disconnects with a rectangle that covers window 7, whose state
    for "HDMI-1" is pending. *)
Lemma disconnect_keeps_pending_states_witness :
  _windowsSavedStates example_pending !! 7%nat
  = Some {[ "HDMI-1" := example_entry ]}
  ∧ ∃ m' : gmap Output SavedState,
      _windowsSavedStates
        (_onOutputDisconnected example_host "DP-2" rect_left 2000
           example_pending) !! 7%nat = Some m'
      ∧ m' !! "HDMI-1" = Some example_entry.
Proof.
  split; [reflexivity|].
  destruct (disconnect_keeps_pending_states example_host "DP-2" rect_left 2000
              example_pending 7%nat {[ "HDMI-1" := example_entry ]}
              "HDMI-1" example_entry) as (m' & Hm' & He);
    [reflexivity | reflexivity |].
  exists m'. split; [exact Hm'|exact He].
Defined.

(** X10.  A disconnect changes no stranded set but its own output's, and
    not the settings: a window stranded under another output stays stranded
    there, also when it is on the disconnected monitor as well. *)
Theorem disconnect_other_outputs
    (h : Host) (outputName : Output) (monitorRect : MonitorRect.t)
    (now : Timestamp) (st : Extension) (o : Output) :
  o ≠ outputName →
  _monitorDisconnectedWindows
    (_onOutputDisconnected h outputName monitorRect now st) !! o
  = _monitorDisconnectedWindows st !! o
  ∧ _settings (_onOutputDisconnected h outputName monitorRect now st)
    = _settings st.
Proof.
  intros Hne. split.
  - by apply onOutputDisconnected_disc_ne.
  - apply onOutputDisconnected_settings.
Qed.

Lemma disconnect_other_outputs_witness :
  _monitorDisconnectedWindows example_pending !! "HDMI-1" = Some {[ 7%nat ]}
  ∧ _monitorDisconnectedWindows
      (_onOutputDisconnected example_host "DP-2" rect_left 2000 example_pending)
      !! "DP-2" = Some {[ 7%nat ]}
  ∧ _monitorDisconnectedWindows
      (_onOutputDisconnected example_host "DP-2" rect_left 2000 example_pending)
      !! "HDMI-1" = Some {[ 7%nat ]}.
Proof.
  split; [reflexivity|]. split; [vm_compute; reflexivity|].
  rewrite (proj1 (disconnect_other_outputs example_host "DP-2" rect_left 2000
                    example_pending "HDMI-1" ltac:(discriminate))).
  reflexivity.
Defined.

(** X11.  A disconnect of a monitor on which no listed window lies records
    an empty stranded set for the output and changes nothing else. *)
Theorem disconnect_empty_monitor
    (h : Host) (outputName : Output) (monitorRect : MonitorRect.t)
    (now : Timestamp) (st : Extension) :
  (∀ w, w ∈ list_windows h → isInside (windowSaver h) w monitorRect = false) →
  _onOutputDisconnected h outputName monitorRect now st
  = with_monitorDisconnectedWindows
      (<[outputName := ∅]> (_monitorDisconnectedWindows st)) st.
Proof.
  intros Hnone. unfold _onOutputDisconnected.
  generalize (with_monitorDisconnectedWindows
                (<[outputName:=∅]> (_monitorDisconnectedWindows st)) st).
  induction (list_windows h) as [|w l IH]; intros st0; [done|].
  cbn [foldl]. unfold disconnectedWindow at 2.
  rewrite (Hnone w) by constructor. simpl.
  apply IH. intros w' Hin. apply Hnone. by constructor.
Qed.

Lemma disconnect_empty_monitor_witness :
  _onOutputDisconnected example_host "DP-3"
    (MonitorRect.mk 0 1080 1920 1080) 2000 example_pending
  = with_monitorDisconnectedWindows
      {[ "HDMI-1" := {[ 7%nat ]}; "DP-3" := ∅ ]} example_pending.
Proof.
  rewrite (disconnect_empty_monitor example_host "DP-3"
             (MonitorRect.mk 0 1080 1920 1080) 2000 example_pending).
  - vm_compute. reflexivity.
  - intros w Hin. apply elem_of_cons in Hin as [->|Hin]; [reflexivity|].
    apply elem_of_cons in Hin as [->|Hin]; [reflexivity|].
    by apply elem_of_nil in Hin.
Defined.

(** *** Window removal *)

(** X12.  A removed window is forgotten: a load that follows restores
    nothing for it, an unload that follows does not minimize it, and
    removing it again changes nothing. *)
Theorem removed_window_is_forgotten
    (w : Window) (st : Extension) (h : Host) (outputName : Output)
    (r : MonitorRect.t) :
  restoresOf w (_onMonitorLoaded h outputName r (_onWindowRemoved w st)).2 = []
  ∧ (w ∉ minimized (_onMonitorUnloaded h outputName (_onWindowRemoved w st)).2)
  ∧ _onWindowRemoved w (_onWindowRemoved w st) = _onWindowRemoved w st.
Proof.
  split; [|split].
  - rewrite onMonitorLoaded_restoresOf. unfold _onWindowRemoved; simpl.
    by rewrite lookup_delete_eq.
  - unfold _onMonitorUnloaded, _onWindowRemoved; simpl. rewrite lookup_fmap.
    destruct (_monitorDisconnectedWindows st !! outputName) as [s|]; simpl.
    + rewrite minimized_loop; simpl.
      destruct (minimize _); [|apply not_elem_of_nil].
      rewrite list_elem_of_filter, elem_of_elements, elem_of_difference.
      rewrite elem_of_singleton. tauto.
    + apply not_elem_of_nil.
  - unfold _onWindowRemoved; simpl. f_equal.
    + apply delete_delete_eq.
    + rewrite <-map_fmap_compose. apply map_fmap_ext.
      intros o s _. simpl. apply difference_twice_L.
Qed.

(** X13.  Removing a window the extension holds nothing of, no saved state
    and no stranded membership, changes nothing. *)
Theorem remove_unknown_window (w : Window) (st : Extension) :
  _windowsSavedStates st !! w = None →
  (∀ o s, _monitorDisconnectedWindows st !! o = Some s → w ∉ s) →
  _onWindowRemoved w st = st.
Proof.
  intros Hsaved Hstranded. apply Extension_eq; simpl; [| |done].
  - by apply delete_id.
  - rewrite <-(map_fmap_id (_monitorDisconnectedWindows st)) at 2.
    apply map_fmap_ext. intros o s Hs. simpl.
    apply difference_disjoint_L, disjoint_singleton_r. by eapply Hstranded.
Qed.

Lemma remove_unknown_window_witness :
  _windowsSavedStates example_pending !! 8%nat = None
  ∧ _onWindowRemoved 8 example_pending = example_pending.
Proof.
  split; [reflexivity|].
  apply (remove_unknown_window 8 example_pending); [reflexivity|].
  intros o s Hs Hin.
  assert (_monitorDisconnectedWindows example_pending
          = {[ "HDMI-1" := {[ 7%nat ]} ]}) as Hd by reflexivity.
  rewrite Hd in Hs. apply lookup_singleton_Some in Hs as [_ <-].
  by apply elem_of_singleton in Hin.
Defined.

(** *** The order of reconnection *)

(** X14.  When a window has states for two outputs, the older for [A] and
    the younger for [B]: loading [B] first and [A] next restores the window
    both times, and loading [A] first discards the state of [B], so that the
    load of [B] restores nothing for the window. *)
Theorem reconnect_order
    (h h' : Host) (A B : Output) (rA rB : MonitorRect.t) (st : Extension)
    (w : Window) (m : gmap Output SavedState) (eA eB : SavedState) :
  _windowsSavedStates st !! w = Some m →
  m !! A = Some eA →
  m !! B = Some eB →
  time eA < time eB →
  restoresOf w (_onMonitorLoaded h B rB st).2
  = [(toAbsolute rB (windowState eB), rB)]
  ∧ restoresOf w (_onMonitorLoaded h' A rA (_onMonitorLoaded h B rB st).1).2
    = [(toAbsolute rA (windowState eA), rA)]
  ∧ restoresOf w (_onMonitorLoaded h A rA st).2
    = [(toAbsolute rA (windowState eA), rA)]
  ∧ restoresOf w (_onMonitorLoaded h' B rB (_onMonitorLoaded h A rA st).1).2
    = [].
Proof.
  intros Hw HA HB Hlt.
  assert (A ≠ B) as Hne.
  { intros ->. rewrite HA in HB. injection HB as ->. lia. }
  rewrite !onMonitorLoaded_restoresOf, !onMonitorLoaded_saved, !lookup_fmap, Hw.
  simpl. rewrite HA, HB.
  rewrite (loadedStates_lookup _ _ _ A HB), (loadedStates_lookup _ _ _ B HA).
  rewrite !decide_False by done. rewrite HA, HB.
  rewrite decide_False by lia. rewrite decide_True by lia. done.
Qed.

Lemma reconnect_order_witness :
  restoresOf 7
    (_onMonitorLoaded example_host "A" rect_left
       (_onMonitorLoaded example_host "B" rect_right example_two_saves).1).2
  = [(WindowState.mk 10 20 [], rect_left)]
  ∧ restoresOf 7
      (_onMonitorLoaded example_host "B" rect_right
         (_onMonitorLoaded example_host "A" rect_left example_two_saves).1).2
    = [].
Proof.
  destruct (reconnect_order example_host example_host "A" "B" rect_left
              rect_right example_two_saves 7%nat
              {[ "A" := example_state_A; "B" := example_state_B ]}
              example_state_A example_state_B)
    as (_ & HBA & _ & HAB);
    [reflexivity | reflexivity | reflexivity | reflexivity |].
  split; [exact HBA | exact HAB].
Defined.

(** *** Runs *)

Lemma restoresOf_app w (cs1 cs2 : list HostCall) :
  restoresOf w (cs1 ++ cs2) = restoresOf w cs1 ++ restoresOf w cs2.
Proof. unfold restoresOf. apply bind_app. Qed.

Lemma minimized_app (cs1 cs2 : list HostCall) :
  minimized (cs1 ++ cs2) = minimized cs1 ++ minimized cs2.
Proof. unfold minimized. apply bind_app. Qed.

Lemma onMonitorLoaded_minimized h o r st :
  minimized (_onMonitorLoaded h o r st).2 = [].
Proof.
  rewrite onMonitorLoaded_calls. unfold minimized.
  induction (map_to_list (_windowsSavedStates st)) as [|entry l IH]; [done|].
  rewrite bind_cons, bind_app, IH, app_nil_r. unfold restoreCall.
  by destruct (entry.2 !! o).
Qed.

Lemma step_not_remembering h ev st :
  rememberState (_settings st) = false ∧ _windowsSavedStates st = ∅ →
  ev ≠ RememberStateChanged true →
  (rememberState (_settings (step h ev st).1) = false
   ∧ _windowsSavedStates (step h ev st).1 = ∅)
  ∧ ∀ w, restoresOf w (step h ev st).2 = [].
Proof.
  intros [Hoff Hempty] Hev. destruct ev as [o r t|o r|o r|o r|w0|v|v]; simpl.
  - rewrite onOutputDisconnected_settings. split; [|done]. split; [done|].
    transitivity (_windowsSavedStates st); [|done]. apply map_eq. intros w.
    apply disconnect_untouched_window. auto.
  - done.
  - rewrite onMonitorUnloaded_settings, onMonitorUnloaded_saved.
    split; [done|]. intros w. unfold _onMonitorUnloaded.
    destruct (_monitorDisconnectedWindows st !! o); simpl; [|done].
    apply restoresOf_minimize_loop.
  - rewrite onMonitorLoaded_settings, onMonitorLoaded_saved, Hempty, fmap_empty.
    split; [done|]. intros w.
    by rewrite onMonitorLoaded_restoresOf, Hempty, lookup_empty.
  - rewrite Hempty, delete_empty. done.
  - destruct v; [done|]. done.
  - done.
Qed.

(** X15.  Once [rememberState] has been set to false, and until it is set
    to true again, no event saves a state and no window is restored. *)
Theorem nothing_restored_while_not_remembering
    (h0 : Host) (st : Extension) (trace : list (Host * Event)) :
  Forall (λ ev, ev ≠ RememberStateChanged true) (events trace) →
  _windowsSavedStates
    (run trace (step h0 (RememberStateChanged false) st).1).1 = ∅
  ∧ ∀ w, restoresOf w
           (run trace (step h0 (RememberStateChanged false) st).1).2 = [].
Proof.
  intros Hall.
  destruct (run_preserves
              (λ st, rememberState (_settings st) = false
                     ∧ _windowsSavedStates st = ∅)
              (λ ev, ev ≠ RememberStateChanged true)
              (λ cs, ∀ w, restoresOf w cs = []))
    with (trace := trace) (st := (step h0 (RememberStateChanged false) st).1)
    as [[_ Hempty] Hquiet]; try done.
  - intros cs1 cs2 H1 H2 w. by rewrite restoresOf_app, H1, H2.
  - intros h ev st'. apply step_not_remembering.
Qed.

Lemma nothing_restored_while_not_remembering_witness :
  _windowsSavedStates
    (run example_not_remembering
       (step example_host (RememberStateChanged false) example_pending).1).1
  = ∅
  ∧ restoresOf 7
      (run example_not_remembering
         (step example_host (RememberStateChanged false) example_pending).1).2
    = [].
Proof.
  destruct (nothing_restored_while_not_remembering example_host example_pending
              example_not_remembering) as [Hempty Hquiet].
  - repeat (constructor; [discriminate|]). constructor.
  - split; [exact Hempty | exact (Hquiet 7%nat)].
Defined.

Lemma step_not_minimizing h ev st :
  minimize (_settings st) = false →
  ev ≠ MinimizeChanged true →
  minimize (_settings (step h ev st).1) = false
  ∧ minimized (step h ev st).2 = [].
Proof.
  intros Hoff Hev. destruct ev as [o r t|o r|o r|o r|w0|v|v]; simpl.
  - by rewrite onOutputDisconnected_settings.
  - done.
  - rewrite onMonitorUnloaded_settings. split; [done|].
    unfold _onMonitorUnloaded.
    destruct (_monitorDisconnectedWindows st !! o); simpl; [|done].
    by rewrite minimized_loop, Hoff.
  - by rewrite onMonitorLoaded_settings, onMonitorLoaded_minimized.
  - done.
  - unfold _onRememberStateChange; simpl. by destruct v.
  - by destruct v.
Qed.

(** X16.  While [minimize] is off, whatever else happens, no window is
    minimized. *)
Theorem nothing_minimized_while_off
    (st : Extension) (trace : list (Host * Event)) :
  minimize (_settings st) = false →
  Forall (λ ev, ev ≠ MinimizeChanged true) (events trace) →
  minimized (run trace st).2 = [].
Proof.
  intros Hoff Hall.
  destruct (run_preserves (λ st, minimize (_settings st) = false)
              (λ ev, ev ≠ MinimizeChanged true) (λ cs, minimized cs = []))
    with (trace := trace) (st := st) as [_ Hquiet]; try done.
  - intros cs1 cs2 H1 H2. by rewrite minimized_app, H1, H2.
  - intros h ev st'. apply step_not_minimizing.
Qed.

Lemma nothing_minimized_while_off_witness :
  minimized
    (run [(example_host, OutputDisconnected "HDMI-1" rect_left 1000);
          (example_host, MonitorUnloaded "HDMI-1" rect_left)]
       (enable (mkSettings true false))).2
  = [].
Proof.
  apply (nothing_minimized_while_off (enable (mkSettings true false))
           [(example_host, OutputDisconnected "HDMI-1" rect_left 1000);
            (example_host, MonitorUnloaded "HDMI-1" rect_left)]);
    [reflexivity|].
  repeat (constructor; [discriminate|]). constructor.
Defined.

(** *** Teardown *)

(** X17.  [disable] releases each object the extension holds exactly once,
    leaves no handle set, and logs exactly once, after the releases; called
    again, or called on an extension that was never enabled, it releases
    nothing and logs. *)
Theorem disable_releases_once (hd : Handles) :
  (disable hd).1 = constructed
  ∧ (∀ o, DisconnectAllSignals o ∈ (disable hd).2 ↔ _signalManager hd = Some o)
  ∧ (∀ o, Unregister o ∈ (disable hd).2 ↔ _screenWatcher hd = Some o)
  ∧ (∀ o, Finalize o ∈ (disable hd).2 ↔ _settingsDb hd = Some o)
  ∧ LogDisabled ∈ (disable hd).2
  ∧ last (disable hd).2 = Some LogDisabled
  ∧ NoDup (disable hd).2
  ∧ disable (disable hd).1 = (constructed, [LogDisabled])
  ∧ disable constructed = (constructed, [LogDisabled]).
Proof.
  destruct hd as [[sm|] [sw|] [db|]]; unfold disable; simpl;
    (split; [reflexivity|]);
    repeat split;
    try (intros Hin; repeat (apply elem_of_cons in Hin as [Hin|Hin];
           [by (discriminate || injection Hin as ->)|]);
         by apply elem_of_nil in Hin);
    try (intros [= ->]; repeat (constructor; try done));
    try (repeat (apply NoDup_cons; split;
           [rewrite ?elem_of_cons, elem_of_nil; intros H;
            repeat (destruct H as [H|H]; try discriminate); done|]);
         apply NoDup_nil_2);
    try (rewrite !elem_of_cons; tauto).
Qed.

Lemma disable_releases_once_witness :
  (disable (mkHandles (Some 1%nat) (Some 2%nat) (Some 3%nat))).2
  = [DisconnectAllSignals 1; Unregister 2; Finalize 3; LogDisabled]
  ∧ LogDisabled ∈ (disable (mkHandles (Some 1%nat) None (Some 3%nat))).2
  ∧ disable (disable (mkHandles (Some 1%nat) None (Some 3%nat))).1
    = (constructed, [LogDisabled]).
Proof.
  split; [reflexivity|].
  destruct (disable_releases_once (mkHandles (Some 1%nat) None (Some 3%nat)))
    as (_ & _ & _ & _ & Hlog & _ & _ & Htwice & _).
  split; [exact Hlog | exact Htwice].
Defined.

(** *** Unplugging *)

(** X18.  When an output disconnects and its monitor is then unloaded, the
    windows minimized are the listed windows that were inside the monitor's
    rectangle at the disconnect and can be minimized at the unload, provided
    [minimize] is on; whether a window's state was captured plays no part. *)
Theorem unplug_minimizes
    (h h1 : Host) (outputName : Output) (R : MonitorRect.t) (now : Timestamp)
    (st : Extension) (w : Window) :
  w ∈ minimized
        (_onMonitorUnloaded h1 outputName
           (_onOutputDisconnected h outputName R now st)).2
  ↔ minimize (_settings st) = true
    ∧ w ∈ list_windows h
    ∧ isInside (windowSaver h) w R = true
    ∧ can_minimize h1 w = true.
Proof.
  unfold _onMonitorUnloaded. rewrite onOutputDisconnected_disc_eq. simpl.
  rewrite minimized_loop, onOutputDisconnected_settings.
  destruct (minimize (_settings st)).
  - rewrite list_elem_of_filter, elem_of_elements, elem_of_list_to_set.
    rewrite list_elem_of_filter. tauto.
  - rewrite elem_of_nil. split; [done|]. by intros [? _].
Qed.

Lemma unplug_minimizes_witness :
  7%nat ∈ minimized
            (_onMonitorUnloaded example_failing_host "HDMI-1"
               (_onOutputDisconnected example_failing_host "HDMI-1" rect_left
                  1000 (enable (mkSettings false true)))).2
  ∧ ¬ 8%nat ∈ minimized
               (_onMonitorUnloaded example_failing_host "HDMI-1"
                  (_onOutputDisconnected example_failing_host "HDMI-1"
                     rect_left 1000 (enable (mkSettings false true)))).2.
Proof.
  split.
  - apply (unplug_minimizes example_failing_host example_failing_host "HDMI-1"
             rect_left 1000 (enable (mkSettings false true)) 7%nat).
    split; [reflexivity|]. split; [constructor|]. split; reflexivity.
  - intros Hin.
    apply (unplug_minimizes example_failing_host example_failing_host "HDMI-1"
             rect_left 1000 (enable (mkSettings false true)) 8%nat)
      in Hin as (_ & _ & Hinside & _).
    vm_compute in Hinside. discriminate.
Defined.

(** *** Settings *)

Lemma step_settings h ev st :
  (∀ v, ev ≠ RememberStateChanged v) → (∀ v, ev ≠ MinimizeChanged v) →
  _settings (step h ev st).1 = _settings st.
Proof.
  intros Hr Hm. destruct ev as [o r t|o r|o r|o r|w0|v|v]; simpl.
  - apply onOutputDisconnected_settings.
  - done.
  - apply onMonitorUnloaded_settings.
  - apply onMonitorLoaded_settings.
  - done.
  - by destruct (Hr v).
  - by destruct (Hm v).
Qed.

(** X19.  The handlers of the monitor and window events never change the
    settings: after a run without a settings event the settings are what
    they were. *)
Theorem settings_change_only_by_setting
    (st : Extension) (trace : list (Host * Event)) :
  Forall (λ ev, (∀ v, ev ≠ RememberStateChanged v)
                ∧ (∀ v, ev ≠ MinimizeChanged v)) (events trace) →
  _settings (run trace st).1 = _settings st.
Proof.
  intros Hall.
  destruct (run_preserves (λ st', _settings st' = _settings st)
              (λ ev, (∀ v, ev ≠ RememberStateChanged v)
                     ∧ (∀ v, ev ≠ MinimizeChanged v))
              (λ _, True))
    with (trace := trace) (st := st) as [Hsame _]; try done.
  intros h ev st' Hst' [Hr Hm]. split; [|done].
  by rewrite step_settings.
Qed.

Lemma settings_change_only_by_setting_witness :
  _settings
    (run [(example_host, OutputDisconnected "HDMI-1" rect_left 1000);
          (example_host, MonitorUnloaded "HDMI-1" rect_left);
          (example_host, MonitorLoaded "HDMI-1" rect_right);
          (example_host, WindowRemoved 7)]
       (enable (mkSettings true false))).1
  = mkSettings true false.
Proof.
  apply (settings_change_only_by_setting (enable (mkSettings true false))
           [(example_host, OutputDisconnected "HDMI-1" rect_left 1000);
            (example_host, MonitorUnloaded "HDMI-1" rect_left);
            (example_host, MonitorLoaded "HDMI-1" rect_right);
            (example_host, WindowRemoved 7)]).
  repeat (constructor; [split; discriminate|]). constructor.
Defined.
